(** * otelsarama: tracing and metrics around a Kafka consumer

    A shallow embedding of [option.go], [dispatcher.go] and
    [process_operation.go].  Go strings are byte strings ([string]),
    [int], [int32] and [int64] values are [Z], interface values that may be
    [nil] are [option]s, slices are headers into a store of backing arrays,
    and the telemetry backend and the output channel are an event log that
    the code appends to. *)

From Stdlib Require Import ZArith Ascii DecimalString DecimalPos Lia.
From Stdlib Require String.
From stdpp Require Import base list gmap strings.


(** ** The pieces of the Go standard library the code calls *)

Module strings.

(** [strings.Split(s, sep)] for a one-byte separator: the pieces between
    the occurrences of [sep]; always at least one piece. *)
Fixpoint Split (s : string) (sep : ascii) : list string :=
  match s with
  | EmptyString => [EmptyString]
  | String c s' =>
      if Ascii.eqb c sep then EmptyString :: Split s' sep
      else match Split s' sep with
           | [] => [String c EmptyString]
           | piece :: pieces => String c piece :: pieces
           end
  end.

(** [strings.Join(elems, sep)]. *)
Fixpoint Join (elems : list string) (sep : string) : string :=
  match elems with
  | [] => EmptyString
  | [a] => a
  | a :: rest => a +:+ sep +:+ Join rest sep
  end.

(** [s] holds no byte [c]. *)
Fixpoint lacks (c : ascii) (s : string) : bool :=
  match s with
  | EmptyString => true
  | String b s' => negb (Ascii.eqb b c) && lacks c s'
  end.

End strings.

Module strconv.

Local Open Scope Z_scope.

(** Size of [int] on the platforms the client runs on. *)
Definition intSize : Z := 64.

Definition digit (c : ascii) : option Z :=
  let n := Z.of_N (N_of_ascii c) in
  if (48 <=? n) && (n <=? 57) then Some (n - 48) else None.

(** The digit loop of [Atoi] and [ParseUint] in base 10. *)
Fixpoint digits (s : string) (acc : Z) : option Z :=
  match s with
  | EmptyString => Some acc
  | String c s' =>
      match digit c with
      | Some d => digits s' (acc * 10 + d)
      | None => None
      end
  end.

(** [strconv.Atoi]: [Some n] when [err == nil].  An optional sign, then
    one or more decimal digits, the value within the range of [int]. *)
Definition Atoi (s : string) : option Z :=
  match s with
  | EmptyString => None
  | String c rest =>
      let neg := Ascii.eqb c "-"%char in
      let body := if neg || Ascii.eqb c "+"%char then rest else s in
      match body with
      | EmptyString => None
      | _ =>
          match digits body 0 with
          | None => None
          | Some n =>
              let v := if neg then - n else n in
              if (- 2 ^ (intSize - 1) <=? v) && (v <=? 2 ^ (intSize - 1) - 1)
              then Some v else None
          end
      end
  end.

(** [strconv.FormatInt(i, 10)]. *)
Definition FormatInt (i : Z) : string := NilZero.string_of_int (Z.to_int i).

End strconv.

(** ** Attributes: [go.opentelemetry.io/otel/attribute] and [semconv] *)

Inductive Value : Type :=
  | INVALID
  | INT64 (i : Z)
  | STRING (s : string).

Record KeyValue : Type := mkKeyValue { Key : string; Val : Value }.

Module attribute.

Definition Int (k : string) (v : Z) : KeyValue := mkKeyValue k (INT64 v).

Definition String (k v : string) : KeyValue := mkKeyValue k (STRING v).

(** The zero [KeyValue], which fills the unused capacity of a slice. *)
Definition zero : KeyValue := mkKeyValue EmptyString INVALID.

End attribute.

Module semconv.

Definition MessagingSystem (v : string) : KeyValue :=
  attribute.String "messaging.system" v.

Definition MessagingDestinationName (v : string) : KeyValue :=
  attribute.String "messaging.destination.name" v.

End semconv.

(** [hasKey k attrs]: some attribute of [attrs] has the key [k]. *)
Definition hasKey (k : string) (attrs : list KeyValue) : bool :=
  existsb (fun kv => String.eqb (Key kv) k) attrs.

(** ** Tracing, metrics and propagation at their API boundary *)

Record SpanContext : Type :=
  mkSpanContext { TraceID : string; SpanID : string; Remote : bool }.

(** A [context.Context], by the span context it carries, if any. *)
Definition Context : Type := option SpanContext.

Definition Background : Context := None.

Module trace.

Record TracerProvider : Type := mkTracerProvider { providerName : string }.

Record Tracer : Type := mkTracer {
  provider : TracerProvider;
  instrumentationName : string;
  instrumentationVersion : string
}.

Inductive SpanKind : Type :=
  | SpanKindUnspecified
  | SpanKindInternal
  | SpanKindServer
  | SpanKindClient
  | SpanKindProducer
  | SpanKindConsumer.

Record Link : Type := mkLink {
  LinkSpanContext : SpanContext;
  LinkAttributes : list KeyValue
}.

Inductive SpanStartOption : Type :=
  | WithAttributes (attrs : list KeyValue)
  | WithLinks (links : list Link)
  | WithSpanKind (kind : SpanKind)
  | WithNewRoot.

Definition IsValid (sc : SpanContext) : bool :=
  negb (String.eqb (TraceID sc) EmptyString)
  && negb (String.eqb (SpanID sc) EmptyString).

(** [trace.SpanContextFromContext]: the zero span context when the context
    carries none. *)
Definition SpanContextFromContext (ctx : Context) : SpanContext :=
  match ctx with
  | Some sc => sc
  | None => mkSpanContext EmptyString EmptyString false
  end.

Definition LinkFromContext (ctx : Context) : Link :=
  mkLink (SpanContextFromContext ctx) [].

Record SpanConfig : Type := mkSpanConfig {
  attributes : list KeyValue;
  links : list Link;
  spanKind : SpanKind;
  newRoot : bool
}.

Definition applySpanStartOption (c : SpanConfig) (o : SpanStartOption)
  : SpanConfig :=
  match o with
  | WithAttributes a =>
      mkSpanConfig (attributes c ++ a) (links c) (spanKind c) (newRoot c)
  | WithLinks l =>
      mkSpanConfig (attributes c) (links c ++ l) (spanKind c) (newRoot c)
  | WithSpanKind k => mkSpanConfig (attributes c) (links c) k (newRoot c)
  | WithNewRoot => mkSpanConfig (attributes c) (links c) (spanKind c) true
  end.

Definition NewSpanStartConfig (opts : list SpanStartOption) : SpanConfig :=
  fold_left applySpanStartOption opts
    (mkSpanConfig [] [] SpanKindUnspecified false).

(** The contract of [Tracer.Start(ctx, name, opts...)]: the new span is a
    child of the span context that [ctx] carries when that is valid, unless
    [WithNewRoot] is among the options; otherwise it is a root span. *)
Definition parent (ctx : Context) (opts : list SpanStartOption)
  : option SpanContext :=
  if newRoot (NewSpanStartConfig opts) then None
  else if IsValid (SpanContextFromContext ctx)
       then Some (SpanContextFromContext ctx) else None.

End trace.

Module metric.

Record MeterProvider : Type := mkMeterProvider { providerName : string }.

Record Meter : Type := mkMeter {
  provider : MeterProvider;
  instrumentationName : string;
  instrumentationVersion : string
}.

Inductive Kind : Type := KindFloat64Histogram | KindInt64Counter.

(** An instrument, by the meter, kind, name and unit it was created with. *)
Record Instrument : Type := mkInstrument {
  meter : Meter;
  kind : Kind;
  name : string;
  unit : string
}.

(** [Meter.Float64Histogram(name, WithUnit(unit))] and
    [Meter.Int64Counter(name)]: the code drops the error result and keeps
    the instrument, which the API returns in every case. *)
Definition Float64Histogram (m : Meter) (name unit : string) : Instrument :=
  mkInstrument m KindFloat64Histogram name unit.

Definition Int64Counter (m : Meter) (name : string) : Instrument :=
  mkInstrument m KindInt64Counter name EmptyString.

End metric.

Module propagation.

(** The carrier of a message: its headers as key/value strings. *)
Definition TextMapCarrier : Type := list (string * string).

Record TextMapPropagator : Type := mkTextMapPropagator {
  Extract : Context -> TextMapCarrier -> Context
}.

End propagation.

Module sarama.

Record ConsumerMessage : Type := mkConsumerMessage {
  Headers : list (string * string);
  Key : string;
  Value : string;
  Topic : string;
  Partition : Z;
  Offset : Z
}.

End sarama.

(** Modelled from the spec: [NewConsumerMessageCarrier], defined in the
    package's message file, wraps a message so that the propagation codec
    reads its header map as string keys and values. *)
Definition NewConsumerMessageCarrier (msg : sarama.ConsumerMessage)
  : propagation.TextMapCarrier :=
  sarama.Headers msg.

(** A [time.Duration] in nanoseconds; [Seconds d] stands for the [float64]
    that [d.Seconds()] returns. *)
Inductive float64 : Type := Seconds (d : Z).

(** [t.Sub(u)] on clock readings in nanoseconds: the duration [t - u], kept
    within the range of [int64]. *)
Definition Sub (t u : Z) : Z :=
  Z.max (- 2 ^ 63) (Z.min (2 ^ 63 - 1) (t - u)).

(** An [error] value, by the text its [Error] method returns. *)
Record error : Type := mkError { Error : string }.

(** ** The world the code runs in *)

(** What the code does to the tracer, the instruments and the output
    channel: a span started (with the span the tracer returns, the context
    and the options given to [Start]) or ended, a send on the output channel
    completed (the channel has no buffer: a receiver has taken the message),
    the output channel closed, a value recorded on a histogram, an increment
    added to a counter. *)
Inductive Event : Type :=
  | SpanStart (t : trace.Tracer) (span : nat) (ctx : Context) (name : string)
      (opts : list trace.SpanStartOption)
  | SpanEnd (span : nat)
  | Send (msg : sarama.ConsumerMessage)
  | Close
  | Measure (h : metric.Instrument) (v : float64) (attrs : list KeyValue)
  | Count (c : metric.Instrument) (incr : Z) (attrs : list KeyValue).

(** A slice header: backing array, length and capacity.  The slices of the
    package all start at the head of their array. *)
Record slice : Type := mkSlice { array : nat; len : nat; cap : nat }.

Definition nilSlice : slice := mkSlice 0 0 0.

Record World : Type := mkWorld {
  heap : gmap nat (list KeyValue);
  nextSpan : nat;
  ticks : nat;
  events : list Event
}.

Inductive outcome (A : Type) : Type :=
  | Ok (a : A)
  | Panic.

Arguments Ok {A} a.
Arguments Panic {A}.

(** Code that reads and writes the world and may panic. *)
Definition M (A : Type) : Type := World -> outcome A * World.

Definition ret {A : Type} (a : A) : M A := fun w => (Ok a, w).

Definition bind {A B : Type} (m : M A) (k : A -> M B) : M B :=
  fun w =>
    match m w with
    | (Ok a, w') => k a w'
    | (Panic, w') => (Panic, w')
    end.

Notation "'do' x <- m ; k" := (bind m (fun x => k))
  (at level 10, x name, m at level 100, k at level 200, only parsing).

Definition panic {A : Type} : M A := fun w => (Panic, w).

Definition emit (e : Event) : M unit :=
  fun w => (Ok tt, mkWorld (heap w) (nextSpan w) (ticks w) (events w ++ [e])).

(** The elements of a slice. *)
Definition elems (s : slice) (h : gmap nat (list KeyValue)) : list KeyValue :=
  take (len s) (default [] (h !! array s)).

(** What the process is given from outside: the clock ([clock n] is the
    reading of the [n]-th call of [time.Now], in nanoseconds), the capacity
    the runtime picks when [append] must grow a slice of capacity [c] to
    hold [n] elements, the version string of the package, and the global
    providers of [otel]. *)
Record Runtime : Type := mkRuntime {
  clock : nat -> Z;
  growcap : nat -> nat -> nat;
  Version : string;
  GetTextMapPropagator : propagation.TextMapPropagator;
  GetTracerProvider : trace.TracerProvider;
  GetMeterProvider : metric.MeterProvider
}.

(** ** option.go *)

Definition defaultTracerName : string :=
  "go.opentelemetry.io/contrib/instrumentation/github.com/IBM/sarama/otelsarama".

Definition defaultMeterName : string := defaultTracerName.

Record config : Type := mkConfig {
  TracerProvider : option trace.TracerProvider;
  MeterProvider : option metric.MeterProvider;
  Propagators : option propagation.TextMapPropagator;
  Tracer : option trace.Tracer;
  Meter : option metric.Meter;
  ServerAddress : string;
  ServerPort : Z;
  ConsumerGroupID : string
}.

(** The zero value of [config]. *)
Definition zeroConfig : config :=
  mkConfig None None None None None EmptyString 0%Z EmptyString.

Definition setTracerProvider (v : option trace.TracerProvider) (c : config) :=
  mkConfig v (MeterProvider c) (Propagators c) (Tracer c) (Meter c)
    (ServerAddress c) (ServerPort c) (ConsumerGroupID c).

Definition setPropagators (v : option propagation.TextMapPropagator)
  (c : config) :=
  mkConfig (TracerProvider c) (MeterProvider c) v (Tracer c) (Meter c)
    (ServerAddress c) (ServerPort c) (ConsumerGroupID c).

Definition setTracer (v : option trace.Tracer) (c : config) :=
  mkConfig (TracerProvider c) (MeterProvider c) (Propagators c) v (Meter c)
    (ServerAddress c) (ServerPort c) (ConsumerGroupID c).

Definition setMeter (v : option metric.Meter) (c : config) :=
  mkConfig (TracerProvider c) (MeterProvider c) (Propagators c) (Tracer c) v
    (ServerAddress c) (ServerPort c) (ConsumerGroupID c).

Definition setServerAddress (v : string) (c : config) :=
  mkConfig (TracerProvider c) (MeterProvider c) (Propagators c) (Tracer c)
    (Meter c) v (ServerPort c) (ConsumerGroupID c).

Definition setServerPort (v : Z) (c : config) :=
  mkConfig (TracerProvider c) (MeterProvider c) (Propagators c) (Tracer c)
    (Meter c) (ServerAddress c) v (ConsumerGroupID c).

Definition setConsumerGroupID (v : string) (c : config) :=
  mkConfig (TracerProvider c) (MeterProvider c) (Propagators c) (Tracer c)
    (Meter c) (ServerAddress c) (ServerPort c) v.

(** An [Option] is an [optionFunc]: what [apply] does to the [config] it is
    given a pointer to. *)
Definition Option : Type := config -> config.

Definition apply (opt : Option) (cfg : config) : config := opt cfg.

Definition WithTracerProvider (provider : option trace.TracerProvider)
  : Option :=
  fun cfg =>
    match provider with
    | Some _ => setTracerProvider provider cfg
    | None => cfg
    end.

Definition WithPropagators (propagators : option propagation.TextMapPropagator)
  : Option :=
  fun cfg =>
    match propagators with
    | Some _ => setPropagators propagators cfg
    | None => cfg
    end.

Definition WithBrokerAddresses (addresses : list string) : Option :=
  fun cfg =>
    match addresses with
    | [address] =>
        let uriParts := strings.Split address ":"%char in
        let cfg := setServerAddress (hd EmptyString uriParts) cfg in
        match uriParts with
        | _ :: port :: _ =>
            match strconv.Atoi port with
            | Some iPort => setServerPort iPort cfg
            | None => cfg
            end
        | _ => cfg
        end
    | _ => setServerAddress (strings.Join addresses ";") cfg
    end.

Definition WithConsumerGroup (groupID : string) : Option :=
  fun cfg => setConsumerGroupID groupID cfg.

(** The options this package can build. *)
Inductive packageOption : Option -> Prop :=
  | isWithTracerProvider p : packageOption (WithTracerProvider p)
  | isWithPropagators p : packageOption (WithPropagators p)
  | isWithBrokerAddresses l : packageOption (WithBrokerAddresses l)
  | isWithConsumerGroup g : packageOption (WithConsumerGroup g).

(** A configuration as [newConfig] leaves it: tracer, meter and propagation
    codec are there. *)
Definition resolved (cfg : config) : bool :=
  match Tracer cfg, Meter cfg, Propagators cfg with
  | Some _, Some _, Some _ => true
  | _, _, _ => false
  end.

(** ** The structs of dispatcher.go and process_operation.go *)

Module Wrapper.

(** [consumerMessagesDispatcherWrapper].  [d] is the wrapped dispatcher, by
    the messages its channel delivers before it is closed; the output
    channel [messages] is the [Send] and [Close] events of the world. *)
Record t : Type := mk {
  d : list sarama.ConsumerMessage;
  receiveDuration : option metric.Instrument;
  consumedMessages : option metric.Instrument;
  defaultAttributes : slice;
  cfg : config
}.

End Wrapper.

Abbreviation consumerMessagesDispatcherWrapper := Wrapper.t.

Module Instrumenter.

(** [MessageProcessInstrumenter]. *)
Record t : Type := mk {
  cfg : config;
  metricProcessDuration : option metric.Instrument;
  defaultAttributes : slice
}.

(** The zero value of the struct. *)
Definition zero : t := mk zeroConfig None nilSlice.

End Instrumenter.

Abbreviation MessageProcessInstrumenter := Instrumenter.t.

Module Operation.

(** [MessageProcessOperation]. *)
Record t : Type := mk {
  instrumenter : MessageProcessInstrumenter;
  err : option error;
  start : Z;
  span : option nat;
  topic : string;
  partition : string
}.

End Operation.

Abbreviation MessageProcessOperation := Operation.t.

Section Otelsarama.

Variable go : Runtime.

(** ** Primitive steps *)

(** [time.Now()]. *)
Definition Now : M Z :=
  fun w =>
    (Ok (clock go (ticks w)),
     mkWorld (heap w) (nextSpan w) (S (ticks w)) (events w)).

(** A slice literal: a new array that its elements fill. *)
Definition literal (items : list KeyValue) : M slice :=
  fun w =>
    let a := fresh (dom (heap w)) in
    (Ok (mkSlice a (length items) (length items)),
     mkWorld (<[a := items]> (heap w)) (nextSpan w) (ticks w) (events w)).

(** The built-in [append(s, items...)]: in place, past the length of [s],
    when the capacity of [s] holds the result; into a new array otherwise. *)
Definition append (s : slice) (items : list KeyValue) : M slice :=
  fun w =>
    let n := (len s + length items)%nat in
    if (n <=? cap s)%nat then
      (Ok (mkSlice (array s) n (cap s)),
       mkWorld (alter (list_inserts (len s) items) (array s) (heap w))
         (nextSpan w) (ticks w) (events w))
    else
      let c := growcap go (cap s) n in
      let a := fresh (dom (heap w)) in
      (Ok (mkSlice a n c),
       mkWorld
         (<[a := elems s (heap w) ++ items ++ replicate (c - n) attribute.zero]>
            (heap w))
         (nextSpan w) (ticks w) (events w)).

(** Passing [s...] to a variadic function: the callee sees the elements
    the slice has at the call. *)
Definition spread (s : slice) : M (list KeyValue) :=
  fun w => (Ok (elems s (heap w)), w).

(** [propagators.Extract(ctx, carrier)] on an interface value. *)
Definition Propagators_Extract (p : option propagation.TextMapPropagator)
  (ctx : Context) (carrier : propagation.TextMapCarrier) : M Context :=
  match p with
  | Some p => ret (propagation.Extract p ctx carrier)
  | None => panic
  end.

(** [tracer.Start(ctx, name, opts...)] on an interface value: the span it
    returns. *)
Definition Tracer_Start (t : option trace.Tracer) (ctx : Context)
  (name : string) (opts : list trace.SpanStartOption) : M nat :=
  match t with
  | Some t =>
      fun w =>
        (Ok (nextSpan w),
         mkWorld (heap w) (S (nextSpan w)) (ticks w)
           (events w ++ [SpanStart t (nextSpan w) ctx name opts]))
  | None => panic
  end.

(** [span.End()] on an interface value. *)
Definition Span_End (span : option nat) : M unit :=
  match span with
  | Some s => emit (SpanEnd s)
  | None => panic
  end.

(** [histogram.Record(ctx, v, metric.WithAttributes(attrs...))] on an
    interface value. *)
Definition Histogram_Record (h : option metric.Instrument) (v : float64)
  (attrs : list KeyValue) : M unit :=
  match h with
  | Some h => emit (Measure h v attrs)
  | None => panic
  end.

(** [counter.Add(ctx, incr, metric.WithAttributes(attrs...))] on an
    interface value. *)
Definition Counter_Add (c : option metric.Instrument) (incr : Z)
  (attrs : list KeyValue) : M unit :=
  match c with
  | Some c => emit (Count c incr attrs)
  | None => panic
  end.

(** ** option.go: newConfig *)

Definition newConfig (opts : list Option) : outcome config :=
  let cfg :=
    fold_left (fun cfg opt => apply opt cfg) opts
      (mkConfig (Some (GetTracerProvider go)) (Some (GetMeterProvider go))
         (Some (GetTextMapPropagator go)) None None EmptyString 0%Z
         EmptyString) in
  match TracerProvider cfg with
  | None => Panic
  | Some tp =>
      let tracer := trace.mkTracer tp defaultTracerName (Version go) in
      let cfg := setTracer (Some tracer) cfg in
      match MeterProvider cfg with
      | None => Panic
      | Some mp =>
          let meter := metric.mkMeter mp defaultMeterName (Version go) in
          Ok (setMeter (Some meter) cfg)
      end
  end.

(** ** dispatcher.go *)

Definition newConsumerMessagesDispatcherWrapper
  (d : list sarama.ConsumerMessage) (cfg : config)
  : M consumerMessagesDispatcherWrapper :=
  match Meter cfg with
  | None => panic
  | Some meter =>
      let receiveDuration :=
        metric.Float64Histogram meter "messaging.client.operation.duration"
          "s" in
      let consumedMessages :=
        metric.Int64Counter meter "messaging.client.consumed.messages" in
      do defaultAttributes <-
        literal [semconv.MessagingSystem "kafka";
                 attribute.String "messaging.operation.name" "receive"];
      do defaultAttributes <-
        (if negb (String.eqb (ServerAddress cfg) EmptyString)
         then append defaultAttributes
                [attribute.String "server.address" (ServerAddress cfg)]
         else ret defaultAttributes);
      do defaultAttributes <-
        (if negb (Z.eqb (ServerPort cfg) 0)
         then append defaultAttributes
                [attribute.Int "server.port" (ServerPort cfg)]
         else ret defaultAttributes);
      do defaultAttributes <-
        (if negb (String.eqb (ConsumerGroupID cfg) EmptyString)
         then append defaultAttributes
                [attribute.String "messaging.consumer.group.name"
                   (ConsumerGroupID cfg)]
         else ret defaultAttributes);
      ret (Wrapper.mk d (Some receiveDuration) (Some consumedMessages)
             defaultAttributes cfg)
  end.

(** The body of the loop of [Run], for one message. *)
Definition receive (w : consumerMessagesDispatcherWrapper)
  (msg : sarama.ConsumerMessage) : M unit :=
  do start <- Now;
  let carrier := NewConsumerMessageCarrier msg in
  do parentSpanContext <-
    Propagators_Extract (Propagators (Wrapper.cfg w)) Background carrier;
  do attrs <-
    append (Wrapper.defaultAttributes w)
      [semconv.MessagingDestinationName (sarama.Topic msg);
       attribute.String "messaging.destination.partition.id"
         (strconv.FormatInt (sarama.Partition msg))];
  do spanAttrs <-
    append attrs
      [attribute.String "messaging.message.id"
         (strconv.FormatInt (sarama.Offset msg))];
  do spanAttrs <- spread spanAttrs;
  let opts :=
    [trace.WithAttributes spanAttrs;
     trace.WithLinks [trace.LinkFromContext parentSpanContext]] in
  do span <-
    Tracer_Start (Tracer (Wrapper.cfg w)) parentSpanContext
      (sarama.Topic msg +:+ " receive") opts;
  do _ <- emit (Send msg);
  do _ <- Span_End (Some span);
  do now <- Now;
  do recorded <- spread attrs;
  do _ <-
    Histogram_Record (Wrapper.receiveDuration w) (Seconds (Sub now start))
      recorded;
  do counted <- spread attrs;
  Counter_Add (Wrapper.consumedMessages w) 1 counted.

Fixpoint range (w : consumerMessagesDispatcherWrapper)
  (msgs : list sarama.ConsumerMessage) : M unit :=
  match msgs with
  | [] => ret tt
  | msg :: msgs => do _ <- receive w msg; range w msgs
  end.

Definition Run (w : consumerMessagesDispatcherWrapper) : M unit :=
  let msgs := Wrapper.d w in
  do _ <- range w msgs;
  emit Close.

(** ** process_operation.go *)

(** [newConfig] panics before anything is written to the world. *)
Definition lift {A : Type} (o : outcome A) : M A := fun w => (o, w).

Definition NewMessageProcessInstrumenter (opts : list Option)
  : M MessageProcessInstrumenter :=
  do cfg <- lift (newConfig opts);
  match Meter cfg with
  | None => panic
  | Some meter =>
      let processDuration :=
        metric.Float64Histogram meter "messaging.client.process.duration"
          "s" in
      do defaultAttributes <-
        literal [semconv.MessagingSystem "kafka";
                 attribute.String "messaging.operation.name" "process"];
      do defaultAttributes <-
        (if negb (String.eqb (ServerAddress cfg) EmptyString)
         then append defaultAttributes
                [attribute.String "server.address" (ServerAddress cfg)]
         else ret defaultAttributes);
      do defaultAttributes <-
        (if negb (Z.eqb (ServerPort cfg) 0)
         then append defaultAttributes
                [attribute.Int "server.port" (ServerPort cfg)]
         else ret defaultAttributes);
      ret (Instrumenter.mk cfg (Some processDuration) defaultAttributes)
  end.

(** The composite literal that [NewProcessOperation] returns names [span],
    [topic], [partition] and [start]; [instrumenter] and [err] keep their
    zero values. *)
Definition NewProcessOperation (instrumenter : MessageProcessInstrumenter)
  (msg : sarama.ConsumerMessage) : M MessageProcessOperation :=
  let carrier := NewConsumerMessageCarrier msg in
  do parentSpanContext <-
    Propagators_Extract (Propagators (Instrumenter.cfg instrumenter))
      Background carrier;
  do attrs <-
    append (Instrumenter.defaultAttributes instrumenter)
      [semconv.MessagingDestinationName (sarama.Topic msg);
       attribute.String "messaging.message.id"
         (strconv.FormatInt (sarama.Offset msg));
       attribute.String "messaging.destination.partition.id"
         (strconv.FormatInt (sarama.Partition msg))];
  do attrs <- spread attrs;
  let opts :=
    [trace.WithAttributes attrs;
     trace.WithSpanKind trace.SpanKindConsumer;
     trace.WithLinks [trace.LinkFromContext parentSpanContext]] in
  do span <-
    Tracer_Start (Tracer (Instrumenter.cfg instrumenter)) parentSpanContext
      (sarama.Topic msg +:+ " process") opts;
  do now <- Now;
  ret (Operation.mk Instrumenter.zero None now (Some span) (sarama.Topic msg)
         (strconv.FormatInt (sarama.Partition msg))).

Definition SetError (msg : MessageProcessOperation) (err : option error)
  : MessageProcessOperation :=
  Operation.mk (Operation.instrumenter msg) err (Operation.start msg)
    (Operation.span msg) (Operation.topic msg) (Operation.partition msg).

(** The arguments of [Record] are evaluated before the call is made on the
    histogram of [msg.instrumenter]. *)
Definition Stop (msg : MessageProcessOperation) : M unit :=
  do _ <- Span_End (Operation.span msg);
  do attrs <-
    append (Instrumenter.defaultAttributes (Operation.instrumenter msg))
      [semconv.MessagingDestinationName (Operation.topic msg);
       attribute.String "messaging.destination.partition.id"
         (Operation.partition msg)];
  do attrs <-
    match Operation.err msg with
    | Some e => append attrs [attribute.String "error.type" (Error e)]
    | None => ret attrs
    end;
  do now <- Now;
  do recorded <- spread attrs;
  Histogram_Record
    (Instrumenter.metricProcessDuration (Operation.instrumenter msg))
    (Seconds (Sub now (Operation.start msg))) recorded.

End Otelsarama.

(** [newConfig] returns, with a resolved configuration. *)
Definition resolves (go : Runtime) (opts : list Option) : bool :=
  match newConfig go opts with
  | Ok cfg => resolved cfg
  | Panic => false
  end.

(** ** Reading the event log *)

(** The messages put on the output channel, in order. *)
Definition sent (tr : list Event) : list sarama.ConsumerMessage :=
  omap (fun e => match e with Send m => Some m | _ => None end) tr.

(** The spans started and the spans ended, in order. *)
Definition started (tr : list Event) : list nat :=
  omap (fun e => match e with SpanStart _ s _ _ _ => Some s | _ => None end) tr.

Definition ended (tr : list Event) : list nat :=
  omap (fun e => match e with SpanEnd s => Some s | _ => None end) tr.

(** The attributes each started span was given. *)
Definition spanAttributes (tr : list Event) : list (list KeyValue) :=
  omap (fun e =>
          match e with
          | SpanStart _ _ _ _ opts =>
              Some (trace.attributes (trace.NewSpanStartConfig opts))
          | _ => None
          end) tr.

(** The measurements made on histograms and on counters. *)
Definition recorded (tr : list Event)
  : list (metric.Instrument * float64 * list KeyValue) :=
  omap (fun e => match e with Measure h v a => Some (h, v, a) | _ => None end) tr.

Definition added (tr : list Event)
  : list (metric.Instrument * Z * list KeyValue) :=
  omap (fun e => match e with Count c i a => Some (c, i, a) | _ => None end) tr.

Definition isClose (e : Event) : bool :=
  match e with Close => true | _ => false end.

(** ** The contract the code is checked against *)

(** The default attribute set of the dispatch wrapper: system name,
    operation name, then server address, server port and consumer group
    where the configuration has them. *)
Definition receiveDefaults (cfg : config) : list KeyValue :=
  [semconv.MessagingSystem "kafka";
   attribute.String "messaging.operation.name" "receive"]
  ++ (if negb (String.eqb (ServerAddress cfg) EmptyString)
      then [attribute.String "server.address" (ServerAddress cfg)] else [])
  ++ (if negb (Z.eqb (ServerPort cfg) 0)
      then [attribute.Int "server.port" (ServerPort cfg)] else [])
  ++ (if negb (String.eqb (ConsumerGroupID cfg) EmptyString)
      then [attribute.String "messaging.consumer.group.name"
              (ConsumerGroupID cfg)] else []).

(** The default attribute set of the process instrumenter. *)
Definition processDefaults (cfg : config) : list KeyValue :=
  [semconv.MessagingSystem "kafka";
   attribute.String "messaging.operation.name" "process"]
  ++ (if negb (String.eqb (ServerAddress cfg) EmptyString)
      then [attribute.String "server.address" (ServerAddress cfg)] else [])
  ++ (if negb (Z.eqb (ServerPort cfg) 0)
      then [attribute.Int "server.port" (ServerPort cfg)] else []).

Definition destination (msg : sarama.ConsumerMessage) : list KeyValue :=
  [semconv.MessagingDestinationName (sarama.Topic msg);
   attribute.String "messaging.destination.partition.id"
     (strconv.FormatInt (sarama.Partition msg))].

Definition messageID (msg : sarama.ConsumerMessage) : KeyValue :=
  attribute.String "messaging.message.id" (strconv.FormatInt (sarama.Offset msg)).

(** The receive steps of one message, as the contract of the dispatch
    wrapper lists them: the span is started with the extracted context,
    the message is forwarded, the span is ended, the duration is recorded
    and the message is counted.  [span] is the span the tracer hands out
    and [tick] the number of clock readings made before. *)
Definition receiveSteps (go : Runtime) (t : trace.Tracer) (m : metric.Meter)
  (p : propagation.TextMapPropagator) (defaults : list KeyValue)
  (span tick : nat) (msg : sarama.ConsumerMessage) : list Event :=
  let ctx := propagation.Extract p Background (NewConsumerMessageCarrier msg) in
  let attrs := defaults ++ destination msg in
  [SpanStart t span ctx (sarama.Topic msg +:+ " receive")
     [trace.WithAttributes (attrs ++ [messageID msg]);
      trace.WithLinks [trace.LinkFromContext ctx]];
   Send msg;
   SpanEnd span;
   Measure
     (metric.Float64Histogram m "messaging.client.operation.duration" "s")
     (Seconds (Sub (clock go (S tick)) (clock go tick))) attrs;
   Count (metric.Int64Counter m "messaging.client.consumed.messages") 1 attrs].

(** The receive steps of a sequence of messages, one message after the
    other. *)
Fixpoint receiveAll (go : Runtime) (t : trace.Tracer) (m : metric.Meter)
  (p : propagation.TextMapPropagator) (defaults : list KeyValue)
  (span tick : nat) (msgs : list sarama.ConsumerMessage) : list Event :=
  match msgs with
  | [] => []
  | msg :: msgs =>
      receiveSteps go t m p defaults span tick msg
      ++ receiveAll go t m p defaults (S span) (S (S tick)) msgs
  end.

(** The span start of the process operation of one message. *)
Definition processStart (t : trace.Tracer) (p : propagation.TextMapPropagator)
  (defaults : list KeyValue) (span : nat) (msg : sarama.ConsumerMessage)
  : Event :=
  let ctx := propagation.Extract p Background (NewConsumerMessageCarrier msg) in
  SpanStart t span ctx (sarama.Topic msg +:+ " process")
    [trace.WithAttributes
       (defaults
        ++ [semconv.MessagingDestinationName (sarama.Topic msg);
            messageID msg;
            attribute.String "messaging.destination.partition.id"
              (strconv.FormatInt (sarama.Partition msg))]);
     trace.WithSpanKind trace.SpanKindConsumer;
     trace.WithLinks [trace.LinkFromContext ctx]].

(** A span start that is linked to the context [ctx] without being its
    child. *)
Definition linkedNotParented (ctx : Context) (e : Event) : Prop :=
  match e with
  | SpanStart _ _ ctx' _ opts =>
      trace.parent ctx' opts <> Some (trace.SpanContextFromContext ctx)
      /\ trace.links (trace.NewSpanStartConfig opts) = [trace.LinkFromContext ctx]
  | _ => False
  end.

(** A span start that has [ctx] as its parent context, which makes the span
    a child of the span context of [ctx] when that is valid and a root span
    otherwise, and that is linked to [ctx] as well. *)
Definition linkedAndParented (ctx : Context) (e : Event) : Prop :=
  match e with
  | SpanStart _ _ ctx' _ opts =>
      ctx' = ctx
      /\ trace.parent ctx' opts
         = (if trace.IsValid (trace.SpanContextFromContext ctx)
            then Some (trace.SpanContextFromContext ctx) else None)
      /\ trace.links (trace.NewSpanStartConfig opts) = [trace.LinkFromContext ctx]
  | _ => False
  end.

(** The span starts of a log. *)
Definition spanStarts (tr : list Event) : list Event :=
  List.filter (fun e => match e with SpanStart _ _ _ _ _ => true | _ => false end)
    tr.

(** ** Reasoning about code in [M] *)

(** [runs m w Q]: from [w], [m] returns without a panic, with a result and
    a world that [Q] holds of. *)
Definition runs {A : Type} (m : M A) (w : World) (Q : A -> World -> Prop)
  : Prop :=
  match m w with
  | (Ok a, w') => Q a w'
  | (Panic, _) => False
  end.

(** The array of [s] is there and holds its length and capacity. *)
Definition backed (h : gmap nat (list KeyValue)) (s : slice) : Prop :=
  (len s = 0%nat /\ cap s = 0%nat)
  \/ exists arr, h !! array s = Some arr
                 /\ (len s <= length arr)%nat /\ (cap s <= length arr)%nat.

(** [w'] is [w] but for the store, where the slice [s] is still backed
    and holds the same elements. *)
Definition keeps (s : slice) (w w' : World) : Prop :=
  backed (heap w') s
  /\ elems s (heap w') = elems s (heap w)
  /\ nextSpan w' = nextSpan w /\ ticks w' = ticks w /\ events w' = events w.

(** A wrapper as [newConsumerMessagesDispatcherWrapper] builds it from a
    resolved configuration, in a world where its default attributes are
    backed. *)
Definition built (w : consumerMessagesDispatcherWrapper) (t : trace.Tracer)
  (m : metric.Meter) (p : propagation.TextMapPropagator) : Prop :=
  Tracer (Wrapper.cfg w) = Some t
  /\ Propagators (Wrapper.cfg w) = Some p
  /\ Wrapper.receiveDuration w
     = Some (metric.Float64Histogram m "messaging.client.operation.duration" "s")
  /\ Wrapper.consumedMessages w
     = Some (metric.Int64Counter m "messaging.client.consumed.messages").

(** The options of the package keep the providers and the codec that
    [newConfig] starts from or that an earlier option has set. *)
Definition provided (cfg : config) : Prop :=
  is_Some (TracerProvider cfg) /\ is_Some (MeterProvider cfg)
  /\ is_Some (Propagators cfg).

(** What a client does with an instrumenter: it opens operations, sets
    errors on open operations and stops them, in any order; a panic of
    [Stop] may be recovered from.  The state is the world and the
    operations opened so far. *)
Inductive use (go : Runtime) (i : MessageProcessInstrumenter)
  : World * list MessageProcessOperation
    -> World * list MessageProcessOperation -> Prop :=
  | use_open w ops msg op w' :
      NewProcessOperation go i msg w = (Ok op, w') ->
      use go i (w, ops) (w', op :: ops)
  | use_setError w ops op e :
      In op ops ->
      use go i (w, ops) (w, SetError op e :: ops)
  | use_stop w ops op r w' :
      In op ops ->
      Stop go op w = (r, w') ->
      use go i (w, ops) (w', ops).

(** What holds of the world and of the operations opened so far, whatever
    the client of the instrumenter [i] does: the default attributes of [i]
    are backed and hold [defaults], and every operation has the zero value
    for its instrumenter and a span. *)
Definition sound (i : MessageProcessInstrumenter) (defaults : list KeyValue)
  (st : World * list MessageProcessOperation) : Prop :=
  backed (heap st.1) (Instrumenter.defaultAttributes i)
  /\ elems (Instrumenter.defaultAttributes i) (heap st.1) = defaults
  /\ Forall (fun op =>
               Operation.instrumenter op = Instrumenter.zero
               /\ is_Some (Operation.span op)) st.2.

(** ** Sample data: a runtime, a propagation codec and messages *)

Module Sample.

(** The growth rule of the Go runtime for slices of fewer than 256
    elements, before the capacity is rounded up to an allocation size. *)
Definition nextslicecap (oldCap newLen : nat) : nat :=
  if (oldCap + oldCap <? newLen)%nat then newLen else (oldCap + oldCap)%nat.

Fixpoint get (key : string) (carrier : propagation.TextMapCarrier)
  : option string :=
  match carrier with
  | [] => None
  | (k, v) :: rest => if String.eqb k key then Some v else get key rest
  end.

(** A codec that reads a [traceparent] header of the form
    [version-traceid-spanid-flags] and leaves the context as it is when the
    header is missing or malformed. *)
Definition traceContext : propagation.TextMapPropagator :=
  propagation.mkTextMapPropagator
    (fun ctx carrier =>
       match get "traceparent" carrier with
       | Some v =>
           match strings.Split v "-"%char with
           | [_; traceID; spanID; _] => Some (mkSpanContext traceID spanID true)
           | _ => ctx
           end
       | None => ctx
       end).

Definition runtime : Runtime :=
  mkRuntime (fun n => (Z.of_nat n * 1000000)%Z) nextslicecap "0.1.0"
    traceContext (trace.mkTracerProvider "global")
    (metric.mkMeterProvider "global").

Definition world0 : World := mkWorld ∅ 0 0 [].

Definition traced : sarama.ConsumerMessage :=
  sarama.mkConsumerMessage
    [("traceparent", "00-0af7651916cd43dd8448eb211c80319c-b7ad6b7169203331-01")]
    "k1" "v1" "orders" 3 42.

Definition untraced : sarama.ConsumerMessage :=
  sarama.mkConsumerMessage [] "k2" "v2" "payments" 0 7.

Definition options : list Option :=
  [WithBrokerAddresses ["localhost:9092"]; WithConsumerGroup "billing"].

Definition boom : error := mkError "boom".

(** The configuration that [newConfig] resolves from [options]. *)
Definition cfg : config :=
  match newConfig runtime options with
  | Ok cfg => cfg
  | Panic => zeroConfig
  end.

End Sample.

(** * More of the package *)

(** ** Calls of the option constructors *)

(** A call of one of the four functions of [option.go] that return an
    [Option], by the function and its argument. *)
Inductive OptionCall : Type :=
  | CallWithTracerProvider (provider : option trace.TracerProvider)
  | CallWithPropagators (propagators : option propagation.TextMapPropagator)
  | CallWithBrokerAddresses (addresses : list string)
  | CallWithConsumerGroup (groupID : string).

(** The [Option] that the call returns. *)
Definition build (c : OptionCall) : Option :=
  match c with
  | CallWithTracerProvider provider => WithTracerProvider provider
  | CallWithPropagators propagators => WithPropagators propagators
  | CallWithBrokerAddresses addresses => WithBrokerAddresses addresses
  | CallWithConsumerGroup groupID => WithConsumerGroup groupID
  end.

(** The calls that assign [TracerProvider], [Propagators],
    [ConsumerGroupID], and [ServerAddress] with [ServerPort]. *)
Definition setsTracerProvider (c : OptionCall) : bool :=
  match c with
  | CallWithTracerProvider (Some _) => true
  | _ => false
  end.

Definition setsPropagators (c : OptionCall) : bool :=
  match c with
  | CallWithPropagators (Some _) => true
  | _ => false
  end.

Definition setsConsumerGroup (c : OptionCall) : bool :=
  match c with
  | CallWithConsumerGroup _ => true
  | _ => false
  end.

Definition setsBroker (c : OptionCall) : bool :=
  match c with
  | CallWithBrokerAddresses _ => true
  | _ => false
  end.

(** ** More readings of the event log *)

Definition keys (attrs : list KeyValue) : list string := map Key attrs.

(** The name and the kind of each started span. *)
Definition spanNames (tr : list Event) : list string :=
  omap (fun e => match e with SpanStart _ _ _ n _ => Some n | _ => None end) tr.

Definition spanKinds (tr : list Event) : list trace.SpanKind :=
  omap (fun e =>
          match e with
          | SpanStart _ _ _ _ opts =>
              Some (trace.spanKind (trace.NewSpanStartConfig opts))
          | _ => None
          end) tr.

(** The durations recorded on histograms, in nanoseconds. *)
Definition durations (tr : list Event) : list Z :=
  omap (fun e => match e with Measure _ (Seconds d) _ => Some d | _ => None end)
    tr.

(** The range of [int32] and of [int64]. *)
Definition int32 (i : Z) : Prop := (- 2 ^ 31 <= i <= 2 ^ 31 - 1)%Z.

Definition int64 (i : Z) : Prop := (- 2 ^ 63 <= i <= 2 ^ 63 - 1)%Z.

(** A check that the array of [s] is there and holds its length and
    capacity. *)
Definition backedb (h : gmap nat (list KeyValue)) (s : slice) : bool :=
  (Nat.eqb (len s) 0 && Nat.eqb (cap s) 0)
  || match h !! array s with
     | Some arr => Nat.leb (len s) (length arr) && Nat.leb (cap s) (length arr)
     | None => false
     end.

(** ** An operation that holds its instrumenter *)

Module Fixture.

(** The instrumenter that the sample options give, and the world after its
    construction. *)
Definition instrumenter : MessageProcessInstrumenter :=
  match
    (NewMessageProcessInstrumenter Sample.runtime Sample.options Sample.world0).1
  with
  | Ok i => i
  | Panic => Instrumenter.zero
  end.

Definition world : World :=
  (NewMessageProcessInstrumenter Sample.runtime Sample.options Sample.world0).2.

(** An operation on the topic [orders], partition 3, with its instrumenter,
    a span and an error. *)
Definition operation : MessageProcessOperation :=
  Operation.mk instrumenter (Some Sample.boom) 0 (Some 0%nat) "orders" "3".

(** A configuration with a meter and nothing else. *)
Definition meterOnly : config :=
  setMeter
    (Some (metric.mkMeter (metric.mkMeterProvider "global") defaultMeterName
             "0.1.0"))
    zeroConfig.

End Fixture.

(** * Proofs *)

(** ** The monad *)

Lemma runs_eq {A : Type} (m : M A) (w : World) (Q : A -> World -> Prop) :
  runs m w Q -> exists a w', m w = (Ok a, w') /\ Q a w'.
Proof.
  unfold runs. destruct (m w) as [[a|] w']; [|done]. intros H. by exists a, w'.
Qed.

Lemma bind_Ok {A B : Type} (m : M A) (k : A -> M B) (w w' : World) (a : A) :
  m w = (Ok a, w') -> bind m k w = k a w'.
Proof. unfold bind. by intros ->. Qed.

(** ** Slices and the store *)

Lemma take_inserts_le {A : Type} (n i : nat) (k l : list A) :
  (n <= i)%nat -> take n (list_inserts i k l) = take n l.
Proof.
  intros Hn. apply list_eq. intros j.
  destruct (decide (j < n)%nat) as [Hj|Hj].
  - rewrite !lookup_take_lt by done. apply list_lookup_inserts_lt. lia.
  - rewrite !lookup_take_ge by lia. done.
Qed.

Lemma take_inserts_app {A : Type} (i : nat) (k l : list A) :
  (i + length k <= length l)%nat ->
  take (i + length k) (list_inserts i k l) = take i l ++ k.
Proof.
  intros Hl. apply list_eq. intros j.
  destruct (decide (j < i)%nat) as [Hj|Hj].
  - rewrite lookup_take_lt by lia. rewrite list_lookup_inserts_lt by done.
    rewrite lookup_app_l by (rewrite length_take; lia).
    by rewrite lookup_take_lt.
  - rewrite lookup_app_r by (rewrite length_take; lia).
    rewrite length_take, Nat.min_l by lia.
    destruct (decide (j < i + length k)%nat) as [Hk|Hk].
    + rewrite lookup_take_lt by done. apply list_lookup_inserts; lia.
    + rewrite lookup_take_ge by lia. symmetry. apply lookup_ge_None. lia.
Qed.

Lemma backed_fresh (h : gmap nat (list KeyValue)) (t : slice) :
  backed h t -> (len t = 0%nat /\ cap t = 0%nat) \/ array t <> fresh (dom h).
Proof.
  intros [?|(arr & Harr & _)]; [by left|right].
  intros Heq. apply (is_fresh (dom h)). rewrite <- Heq.
  by eapply elem_of_dom_2.
Qed.

Lemma elems_empty (h : gmap nat (list KeyValue)) (t : slice) :
  len t = 0%nat -> elems t h = [].
Proof. unfold elems. by intros ->. Qed.

(** Allocating an array leaves the backed slices as they are. *)
Lemma insert_fresh_keeps (w : World) (t : slice) (arr : list KeyValue) :
  backed (heap w) t ->
  keeps t w (mkWorld (<[fresh (dom (heap w)) := arr]> (heap w))
               (nextSpan w) (ticks w) (events w)).
Proof.
  intros Ht. destruct (backed_fresh _ _ Ht) as [[Hl Hc]|Hne].
  - repeat split; simpl; [by left|by rewrite !elems_empty].
  - repeat split; simpl.
    + destruct Ht as [?|(a & Ha & ?)]; [by left|right].
      exists a. by rewrite lookup_insert_ne.
    + unfold elems. by rewrite lookup_insert_ne.
Qed.

Section Store.

Variable go : Runtime.

Lemma runs_literal (items : list KeyValue) (w : World)
  (Q : slice -> World -> Prop) :
  (forall s w',
     elems s (heap w') = items -> backed (heap w') s ->
     (forall t, backed (heap w) t -> keeps t w w') ->
     Q s w') ->
  runs (literal items) w Q.
Proof.
  intros HQ. unfold runs, literal. apply HQ.
  - unfold elems. simpl. rewrite lookup_insert_eq. simpl. by rewrite take_ge.
  - right. exists items. simpl. by rewrite lookup_insert_eq.
  - intros t Ht. by apply insert_fresh_keeps.
Qed.

(** [append] returns the elements of [s] followed by [items], and leaves
    alone every slice that is not a longer view of the array of [s]. *)
Lemma runs_append (s : slice) (items : list KeyValue) (w : World)
  (Q : slice -> World -> Prop) :
  backed (heap w) s ->
  (forall s' w',
     elems s' (heap w') = elems s (heap w) ++ items ->
     len s' = (len s + length items)%nat ->
     backed (heap w') s' ->
     (((len s + length items <= cap s)%nat /\ array s' = array s)
      \/ array s' = fresh (dom (heap w))) ->
     (forall t, backed (heap w) t ->
                ((len s + length items <= cap s)%nat ->
                 array t = array s -> (len t <= len s)%nat) ->
                keeps t w w') ->
     Q s' w') ->
  runs (append go s items) w Q.
Proof.
  intros Hs HQ. unfold runs, append.
  destruct (len s + length items <=? cap s)%nat eqn:Hfit.
  - apply Nat.leb_le in Hfit. apply HQ; simpl.
    + destruct Hs as [[Hl Hc]|(arr & Harr & Hlen & Hcap)].
      * assert (items = []) as -> by (destruct items; [done|simpl in Hfit; lia]).
        rewrite app_nil_r. unfold elems. simpl. by rewrite Hl, Nat.add_0_r.
      * unfold elems. simpl. rewrite lookup_alter_eq, Harr. simpl.
        apply take_inserts_app. lia.
    + done.
    + destruct Hs as [[Hl Hc]|(arr & Harr & Hlen & Hcap)].
      * left. simpl. split; [lia|done].
      * right. exists (list_inserts (len s) items arr). simpl.
        rewrite lookup_alter_eq, Harr, length_inserts. split; [done|lia].
    + by left.
    + intros t Ht Hlt. specialize (Hlt Hfit). repeat split; simpl.
      * destruct Ht as [?|(a & Ha & ? & ?)]; [by left|right].
        destruct (decide (array s = array t)) as [Heq|Hne].
        -- exists (list_inserts (len s) items a).
           rewrite <- Heq, lookup_alter_eq, Heq, Ha, length_inserts. done.
        -- exists a. by rewrite lookup_alter_ne.
      * unfold elems. destruct (decide (array s = array t)) as [Heq|Hne].
        -- rewrite <- Heq, lookup_alter_eq.
           destruct (heap w !! array s) as [a|]; [simpl|done].
           apply take_inserts_le. by apply Hlt.
        -- by rewrite lookup_alter_ne.
  - apply Nat.leb_gt in Hfit. apply HQ; simpl.
    + unfold elems at 1. simpl. rewrite lookup_insert_eq. simpl.
      assert (length (elems s (heap w)) = len s) as Hlen.
      { unfold elems. destruct Hs as [[Hl Hc]|(arr & Harr & Hlen & Hcap)].
        - by rewrite Hl.
        - rewrite Harr. simpl. rewrite length_take. lia. }
      rewrite app_assoc. apply take_app_length'.
      rewrite length_app. lia.
    + done.
    + right. eexists. rewrite lookup_insert_eq. split; [done|].
      rewrite !length_app, length_replicate.
      assert (length (elems s (heap w)) = len s) as Hlen.
      { unfold elems. destruct Hs as [[Hl Hc]|(arr & Harr & Hlen & Hcap)].
        - by rewrite Hl.
        - rewrite Harr. simpl. rewrite length_take. lia. }
      simpl. lia.
    + by right.
    + intros t Ht _. by apply insert_fresh_keeps.
Qed.

End Store.

Lemma backed_nil (h : gmap nat (list KeyValue)) : backed h nilSlice.
Proof. by left. Qed.

Section Code.

Variable go : Runtime.

(** [append] as an equation: only the store changes. *)
Lemma append_eq (s : slice) (items : list KeyValue) (w : World) :
  backed (heap w) s ->
  exists s' h',
    append go s items w = (Ok s', mkWorld h' (nextSpan w) (ticks w) (events w))
    /\ elems s' h' = elems s (heap w) ++ items
    /\ len s' = (len s + length items)%nat
    /\ backed h' s'
    /\ (((len s + length items <= cap s)%nat /\ array s' = array s)
        \/ array s' = fresh (dom (heap w)))
    /\ forall t, backed (heap w) t ->
                 ((len s + length items <= cap s)%nat ->
                  array t = array s -> (len t <= len s)%nat) ->
                 backed h' t /\ elems t h' = elems t (heap w).
Proof.
  intros Hs.
  destruct (runs_eq (append go s items) w
              (fun s' w' =>
                 keeps nilSlice w w'
                 /\ elems s' (heap w') = elems s (heap w) ++ items
                 /\ len s' = (len s + length items)%nat
                 /\ backed (heap w') s'
                 /\ (((len s + length items <= cap s)%nat
                      /\ array s' = array s)
                     \/ array s' = fresh (dom (heap w)))
                 /\ forall t, backed (heap w) t ->
                      ((len s + length items <= cap s)%nat ->
                       array t = array s -> (len t <= len s)%nat) ->
                      keeps t w w'))
    as (s' & w' & Heq & Hnil & Hel & Hlen & Hb & Hwhere & Hkeep).
  { apply runs_append; [done|]. intros s' w' ? ? ? ? Hk.
    split; [apply Hk; [apply backed_nil|simpl; lia]|done]. }
  exists s', (heap w'). destruct Hnil as (_ & _ & Hn & Ht & He).
  destruct w' as [h' n' t' e']. simpl in *. subst.
  repeat split; try done; by apply Hkeep.
Qed.

Lemma literal_eq (items : list KeyValue) (w : World) :
  exists s h',
    literal items w = (Ok s, mkWorld h' (nextSpan w) (ticks w) (events w))
    /\ elems s h' = items
    /\ backed h' s
    /\ forall t, backed (heap w) t ->
                 backed h' t /\ elems t h' = elems t (heap w).
Proof.
  destruct (runs_eq (literal items) w
              (fun s w' =>
                 keeps nilSlice w w' /\ elems s (heap w') = items
                 /\ backed (heap w') s
                 /\ forall t, backed (heap w) t -> keeps t w w'))
    as (s & w' & Heq & Hnil & Hel & Hb & Hkeep).
  { apply runs_literal. intros s w' ? ? Hk.
    split; [apply Hk, backed_nil|done]. }
  exists s, (heap w'). destruct Hnil as (_ & _ & Hn & Ht & He).
  destruct w' as [h' n' t' e']. simpl in *. subst.
  repeat split; try done; by apply Hkeep.
Qed.

(** ** The loop of [Run] *)

Lemma receive_eq (w : consumerMessagesDispatcherWrapper) (t : trace.Tracer)
  (m : metric.Meter) (p : propagation.TextMapPropagator)
  (msg : sarama.ConsumerMessage) (world : World) :
  built w t m p ->
  backed (heap world) (Wrapper.defaultAttributes w) ->
  exists h',
    receive go w msg world
    = (Ok tt,
       mkWorld h' (S (nextSpan world)) (S (S (ticks world)))
         (events world
          ++ receiveSteps go t m p
               (elems (Wrapper.defaultAttributes w) (heap world))
               (nextSpan world) (ticks world) msg))
    /\ backed h' (Wrapper.defaultAttributes w)
    /\ elems (Wrapper.defaultAttributes w) h'
       = elems (Wrapper.defaultAttributes w) (heap world).
Proof.
  intros (Ht & Hp & Hh & Hc) Hb.
  unfold receive. rewrite Hp, Ht, Hh, Hc.
  erewrite bind_Ok by reflexivity.
  erewrite bind_Ok by reflexivity.
  destruct (append_eq (Wrapper.defaultAttributes w) (destination msg)
              (mkWorld (heap world) (nextSpan world) (S (ticks world))
                 (events world)) Hb)
    as (attrs & h1 & E1 & Hel1 & Hlen1 & Hb1 & _ & Hk1).
  simpl in E1, Hel1, Hlen1, Hk1.
  erewrite bind_Ok by exact E1.
  destruct (append_eq attrs [messageID msg]
              (mkWorld h1 (nextSpan world) (S (ticks world)) (events world)) Hb1)
    as (spanAttrs & h2 & E2 & Hel2 & Hlen2 & Hb2 & _ & Hk2).
  simpl in E2, Hel2, Hlen2, Hk2.
  erewrite bind_Ok by exact E2.
  destruct (Hk1 _ Hb) as [Hb1d Hel1d]; [lia|].
  destruct (Hk2 _ Hb1d) as [Hb2d Hel2d]; [lia|].
  destruct (Hk2 _ Hb1) as [_ Hel2a]; [lia|].
  exists h2. split; [|split; [done|congruence]].
  repeat (erewrite bind_Ok by reflexivity).
  unfold Counter_Add, emit, spread. simpl.
  rewrite Hel2, Hel2a, Hel1. unfold receiveSteps.
  rewrite <- !app_assoc. done.
Qed.

Lemma range_eq (w : consumerMessagesDispatcherWrapper) (t : trace.Tracer)
  (m : metric.Meter) (p : propagation.TextMapPropagator)
  (msgs : list sarama.ConsumerMessage) (world : World) :
  built w t m p ->
  backed (heap world) (Wrapper.defaultAttributes w) ->
  exists h',
    range go w msgs world
    = (Ok tt,
       mkWorld h' (length msgs + nextSpan world)
         (2 * length msgs + ticks world)
         (events world
          ++ receiveAll go t m p
               (elems (Wrapper.defaultAttributes w) (heap world))
               (nextSpan world) (ticks world) msgs))
    /\ backed h' (Wrapper.defaultAttributes w)
    /\ elems (Wrapper.defaultAttributes w) h'
       = elems (Wrapper.defaultAttributes w) (heap world).
Proof.
  intros Hw. revert world.
  induction msgs as [|msg msgs IH]; intros world Hb.
  - exists (heap world). destruct world. simpl. by rewrite app_nil_r.
  - destruct (receive_eq w t m p msg world Hw Hb) as (h1 & E1 & Hb1 & Hel1).
    simpl. unfold bind. rewrite E1.
    destruct (IH (mkWorld h1 (S (nextSpan world)) (S (S (ticks world)))
                    (events world
                     ++ receiveSteps go t m p
                          (elems (Wrapper.defaultAttributes w) (heap world))
                          (nextSpan world) (ticks world) msg)) Hb1)
      as (h2 & E2 & Hb2 & Hel2).
    rewrite E2. simpl in *. exists h2.
    split; [|split; [done|congruence]].
    rewrite Hel1, <- app_assoc. do 3 f_equal; lia.
Qed.

Lemma Run_eq (w : consumerMessagesDispatcherWrapper) (t : trace.Tracer)
  (m : metric.Meter) (p : propagation.TextMapPropagator) (world : World) :
  built w t m p ->
  backed (heap world) (Wrapper.defaultAttributes w) ->
  exists h',
    Run go w world
    = (Ok tt,
       mkWorld h' (length (Wrapper.d w) + nextSpan world)
         (2 * length (Wrapper.d w) + ticks world)
         (events world
          ++ receiveAll go t m p
               (elems (Wrapper.defaultAttributes w) (heap world))
               (nextSpan world) (ticks world) (Wrapper.d w)
          ++ [Close]))
    /\ backed h' (Wrapper.defaultAttributes w)
    /\ elems (Wrapper.defaultAttributes w) h'
       = elems (Wrapper.defaultAttributes w) (heap world).
Proof.
  intros Hw Hb.
  destruct (range_eq w t m p (Wrapper.d w) world Hw Hb) as (h' & E & Hb' & Hel).
  exists h'. unfold Run. erewrite bind_Ok by exact E.
  unfold emit. simpl. by rewrite <- app_assoc.
Qed.

End Code.

Section Construction.

Variable go : Runtime.

(** One optional default attribute. *)
Lemma append_if_eq (b : bool) (s : slice) (item : KeyValue) (w : World) :
  backed (heap w) s ->
  exists s' h',
    (if b then append go s [item] else ret s) w
    = (Ok s', mkWorld h' (nextSpan w) (ticks w) (events w))
    /\ elems s' h' = elems s (heap w) ++ (if b then [item] else [])
    /\ backed h' s'
    /\ forall t, backed (heap w) t -> array t <> array s ->
                 backed h' t /\ elems t h' = elems t (heap w).
Proof.
  intros Hs. destruct b.
  - destruct (append_eq go s [item] w Hs)
      as (s' & h' & E & Hel & _ & Hb & _ & Hk).
    exists s', h'. repeat split; try done; apply Hk; done.
  - exists s, (heap w). destruct w. simpl. by rewrite app_nil_r.
Qed.

Lemma newConsumerMessagesDispatcherWrapper_eq
  (d : list sarama.ConsumerMessage) (cfg : config) (m : metric.Meter)
  (world : World) :
  Meter cfg = Some m ->
  exists defaultAttributes h',
    newConsumerMessagesDispatcherWrapper go d cfg world
    = (Ok (Wrapper.mk d
             (Some (metric.Float64Histogram m
                      "messaging.client.operation.duration" "s"))
             (Some (metric.Int64Counter m "messaging.client.consumed.messages"))
             defaultAttributes cfg),
       mkWorld h' (nextSpan world) (ticks world) (events world))
    /\ backed h' defaultAttributes
    /\ elems defaultAttributes h' = receiveDefaults cfg.
Proof.
  intros Hm. unfold newConsumerMessagesDispatcherWrapper. rewrite Hm.
  destruct (literal_eq
              [semconv.MessagingSystem "kafka";
               attribute.String "messaging.operation.name" "receive"] world)
    as (s0 & h0 & E0 & Hel0 & Hb0 & _).
  erewrite bind_Ok by exact E0.
  destruct (append_if_eq (negb (String.eqb (ServerAddress cfg) EmptyString)) s0
              (attribute.String "server.address" (ServerAddress cfg))
              (mkWorld h0 (nextSpan world) (ticks world) (events world)) Hb0)
    as (s1 & h1 & E1 & Hel1 & Hb1 & _).
  erewrite bind_Ok by exact E1.
  destruct (append_if_eq (negb (Z.eqb (ServerPort cfg) 0)) s1
              (attribute.Int "server.port" (ServerPort cfg))
              (mkWorld h1 (nextSpan world) (ticks world) (events world)) Hb1)
    as (s2 & h2 & E2 & Hel2 & Hb2 & _).
  erewrite bind_Ok by exact E2.
  destruct (append_if_eq (negb (String.eqb (ConsumerGroupID cfg) EmptyString)) s2
              (attribute.String "messaging.consumer.group.name"
                 (ConsumerGroupID cfg))
              (mkWorld h2 (nextSpan world) (ticks world) (events world)) Hb2)
    as (s3 & h3 & E3 & Hel3 & Hb3 & _).
  erewrite bind_Ok by exact E3.
  exists s3, h3. split; [done|split; [done|]].
  simpl in *. rewrite Hel3, Hel2, Hel1, Hel0. unfold receiveDefaults.
  by rewrite <- !app_assoc.
Qed.

Lemma packageOption_provided (opt : Option) (cfg : config) :
  packageOption opt -> provided cfg -> provided (apply opt cfg).
Proof.
  intros Hopt (Ht & Hm & Hp). destruct Hopt as [p|p|l|g]; unfold apply.
  - destruct p; [|done]. repeat split; simpl; eauto.
  - destruct p; [|done]. repeat split; simpl; eauto.
  - unfold WithBrokerAddresses.
    destruct l as [|a [|b l]]; [done| |done].
    destruct (strings.Split a ":") as [|x [|y r]]; [done|done|].
    by destruct (strconv.Atoi y).
  - done.
Qed.

Lemma fold_provided (opts : list Option) (cfg : config) :
  Forall packageOption opts -> provided cfg ->
  provided (fold_left (fun cfg opt => apply opt cfg) opts cfg).
Proof.
  intros Hopts. revert cfg.
  induction Hopts as [|opt opts Hopt _ IH]; intros cfg Hcfg; [done|].
  simpl. by apply IH, packageOption_provided.
Qed.

Lemma newConfig_resolved (opts : list Option) :
  Forall packageOption opts ->
  exists cfg, newConfig go opts = Ok cfg /\ resolved cfg = true.
Proof.
  intros Hopts. unfold newConfig.
  destruct (fold_provided opts
              (mkConfig (Some (GetTracerProvider go))
                 (Some (GetMeterProvider go))
                 (Some (GetTextMapPropagator go)) None None EmptyString 0%Z
                 EmptyString))
    as ([tp Htp] & [mp Hmp] & [p Hp]); [done|by repeat split; simpl; eauto|].
  rewrite Htp. simpl. rewrite Hmp. eexists. split; [done|].
  unfold resolved. simpl. by rewrite Hp.
Qed.

(** [newConfig] resolves every list of options of the package. *)
Lemma packageOptions_resolve (opts : list Option) :
  Forall packageOption opts -> resolves go opts = true.
Proof.
  intros Hopts. unfold resolves.
  by destruct (newConfig_resolved opts Hopts) as (cfg & -> & ->).
Qed.

Lemma resolves_inv (opts : list Option) :
  resolves go opts = true ->
  exists cfg, newConfig go opts = Ok cfg /\ resolved cfg = true.
Proof.
  unfold resolves. destruct (newConfig go opts) as [cfg|]; [|done].
  intros Hcfg. by exists cfg.
Qed.

Lemma NewMessageProcessInstrumenter_eq (opts : list Option) (cfg : config)
  (m : metric.Meter) (world : World) :
  newConfig go opts = Ok cfg ->
  Meter cfg = Some m ->
  exists defaultAttributes h',
    NewMessageProcessInstrumenter go opts world
    = (Ok (Instrumenter.mk cfg
             (Some (metric.Float64Histogram m
                      "messaging.client.process.duration" "s"))
             defaultAttributes),
       mkWorld h' (nextSpan world) (ticks world) (events world))
    /\ backed h' defaultAttributes
    /\ elems defaultAttributes h' = processDefaults cfg.
Proof.
  intros Hcfg Hm. unfold NewMessageProcessInstrumenter.
  erewrite bind_Ok by (unfold lift; rewrite Hcfg; reflexivity).
  rewrite Hm.
  destruct (literal_eq
              [semconv.MessagingSystem "kafka";
               attribute.String "messaging.operation.name" "process"] world)
    as (s0 & h0 & E0 & Hel0 & Hb0 & _).
  erewrite bind_Ok by exact E0.
  destruct (append_if_eq (negb (String.eqb (ServerAddress cfg) EmptyString)) s0
              (attribute.String "server.address" (ServerAddress cfg))
              (mkWorld h0 (nextSpan world) (ticks world) (events world)) Hb0)
    as (s1 & h1 & E1 & Hel1 & Hb1 & _).
  erewrite bind_Ok by exact E1.
  destruct (append_if_eq (negb (Z.eqb (ServerPort cfg) 0)) s1
              (attribute.Int "server.port" (ServerPort cfg))
              (mkWorld h1 (nextSpan world) (ticks world) (events world)) Hb1)
    as (s2 & h2 & E2 & Hel2 & Hb2 & _).
  erewrite bind_Ok by exact E2.
  exists s2, h2. split; [done|split; [done|]].
  simpl in *. rewrite Hel2, Hel1, Hel0. unfold processDefaults.
  by rewrite <- !app_assoc.
Qed.

Lemma NewProcessOperation_eq (i : MessageProcessInstrumenter)
  (t : trace.Tracer) (p : propagation.TextMapPropagator)
  (msg : sarama.ConsumerMessage) (world : World) :
  Tracer (Instrumenter.cfg i) = Some t ->
  Propagators (Instrumenter.cfg i) = Some p ->
  backed (heap world) (Instrumenter.defaultAttributes i) ->
  exists h',
    NewProcessOperation go i msg world
    = (Ok (Operation.mk Instrumenter.zero None (clock go (ticks world))
             (Some (nextSpan world)) (sarama.Topic msg)
             (strconv.FormatInt (sarama.Partition msg))),
       mkWorld h' (S (nextSpan world)) (S (ticks world))
         (events world
          ++ [processStart t p
                (elems (Instrumenter.defaultAttributes i) (heap world))
                (nextSpan world) msg]))
    /\ backed h' (Instrumenter.defaultAttributes i)
    /\ elems (Instrumenter.defaultAttributes i) h'
       = elems (Instrumenter.defaultAttributes i) (heap world).
Proof.
  intros Ht Hp Hb. unfold NewProcessOperation. rewrite Hp, Ht.
  erewrite bind_Ok by reflexivity.
  destruct (append_eq go (Instrumenter.defaultAttributes i)
              [semconv.MessagingDestinationName (sarama.Topic msg);
               messageID msg;
               attribute.String "messaging.destination.partition.id"
                 (strconv.FormatInt (sarama.Partition msg))] world Hb)
    as (attrs & h1 & E1 & Hel1 & _ & Hb1 & _ & Hk1).
  erewrite bind_Ok by exact E1.
  destruct (Hk1 _ Hb) as [Hb1d Hel1d]; [lia|].
  exists h1. split; [|done].
  repeat (erewrite bind_Ok by reflexivity).
  unfold ret, processStart. simpl. by rewrite Hel1.
Qed.

(** [Stop] on an operation whose [instrumenter] is the zero value: the span
    is ended, the attributes are built from the nil slice, and the call of
    [Record] on the nil histogram panics. *)
Lemma Stop_zero_eq (op : MessageProcessOperation) (s : nat) (world : World) :
  Operation.instrumenter op = Instrumenter.zero ->
  Operation.span op = Some s ->
  exists h',
    Stop go op world
    = (Panic,
       mkWorld h' (nextSpan world) (S (ticks world))
         (events world ++ [SpanEnd s]))
    /\ forall t, backed (heap world) t ->
                 backed h' t /\ elems t h' = elems t (heap world).
Proof.
  intros Hi Hs. unfold Stop. rewrite Hi, Hs. simpl.
  erewrite bind_Ok by reflexivity.
  set (w1 := mkWorld (heap world) (nextSpan world) (ticks world)
               (events world ++ [SpanEnd s])).
  destruct (append_eq go nilSlice
              [semconv.MessagingDestinationName (Operation.topic op);
               attribute.String "messaging.destination.partition.id"
                 (Operation.partition op)] w1 (backed_nil _))
    as (attrs & h1 & E1 & Hel1 & Hlen1 & Hb1 & Hwhere1 & Hk1).
  erewrite bind_Ok by exact E1.
  assert (forall t, backed (heap world) t ->
                    backed h1 t /\ elems t h1 = elems t (heap world)) as Hf1.
  { intros t Ht. apply Hk1; [done|simpl; lia]. }
  destruct Hwhere1 as [[Hfit _]|Hfresh]; [simpl in Hfit; lia|].
  destruct (Operation.err op) as [e|].
  - destruct (append_eq go attrs [attribute.String "error.type" (Error e)]
                (mkWorld h1 (nextSpan w1) (ticks w1) (events w1)) Hb1)
      as (attrs2 & h2 & E2 & _ & _ & _ & _ & Hk2).
    erewrite bind_Ok by exact E2.
    erewrite bind_Ok by reflexivity.
    erewrite bind_Ok by reflexivity.
    exists h2. split; [done|]. intros t Ht.
    destruct (Hf1 t Ht) as [Hbt Helt].
    destruct (Hk2 t Hbt) as [Hbt2 Helt2];
      [|split; [done|simpl in Helt2; congruence]].
    intros _ Harr. subst w1. simpl in *.
    destruct (backed_fresh _ _ Ht) as [[-> _]|Hne]; [lia|congruence].
  - erewrite bind_Ok by reflexivity.
    erewrite bind_Ok by reflexivity.
    erewrite bind_Ok by reflexivity.
    exists h1. split; [done|]. done.
Qed.

End Construction.

(** ** option.go *)

Lemma Split_lacks (c : ascii) (s : string) :
  strings.lacks c s = true -> strings.Split s c = [s].
Proof.
  induction s as [|b s IH]; [done|]. simpl. intros H.
  apply andb_prop in H as [Hb Hs]. apply negb_true_iff in Hb.
  by rewrite Hb, IH.
Qed.

Lemma Split_cut (c : ascii) (s rest : string) :
  strings.lacks c s = true ->
  strings.Split (s +:+ String c rest) c = s :: strings.Split rest c.
Proof.
  induction s as [|b s IH]; simpl.
  - by rewrite Ascii.eqb_refl.
  - intros H. apply andb_prop in H as [Hb Hs]. apply negb_true_iff in Hb.
    by rewrite Hb, IH.
Qed.

(** C4: one broker address [host:port] resolves to the host as server
    address and to the port that [Atoi] parses, the port being left as it
    was when [Atoi] fails; one address without a port resolves to the host
    alone; two or more addresses resolve to their join with [;] and leave
    the port alone.  [newConfig] resolves [localhost:9092] to [localhost]
    and 9092, and [a:9092], [b:9093] to [a:9092;b:9093] with the port at
    its zero value. *)
Theorem WithBrokerAddresses_resolves (go : Runtime) (host port a b : string)
  (rest : list string) (cfg : config) :
  strings.lacks ":" host = true ->
  strings.lacks ":" port = true ->
  (ServerAddress (apply (WithBrokerAddresses [host +:+ ":" +:+ port]) cfg) = host
   /\ ServerPort (apply (WithBrokerAddresses [host +:+ ":" +:+ port]) cfg)
      = default (ServerPort cfg) (strconv.Atoi port))
  /\ (ServerAddress (apply (WithBrokerAddresses [host]) cfg) = host
      /\ ServerPort (apply (WithBrokerAddresses [host]) cfg) = ServerPort cfg)
  /\ (ServerAddress (apply (WithBrokerAddresses (a :: b :: rest)) cfg)
      = strings.Join (a :: b :: rest) ";"
      /\ ServerPort (apply (WithBrokerAddresses (a :: b :: rest)) cfg)
         = ServerPort cfg)
  /\ (exists cfg', newConfig go [WithBrokerAddresses ["localhost:9092"]] = Ok cfg'
                   /\ ServerAddress cfg' = "localhost"
                   /\ ServerPort cfg' = 9092%Z)
  /\ (exists cfg', newConfig go [WithBrokerAddresses ["a:9092"; "b:9093"]] = Ok cfg'
                   /\ ServerAddress cfg' = "a:9092;b:9093"
                   /\ ServerPort cfg' = 0%Z).
Proof.
  intros Hhost Hport. unfold apply, WithBrokerAddresses.
  split; [|split; [|split; [|split]]].
  - change (host +:+ ":" +:+ port) with (host +:+ String ":" port).
    rewrite (Split_cut _ _ _ Hhost), (Split_lacks _ _ Hport). simpl.
    by destruct (strconv.Atoi port).
  - by rewrite (Split_lacks _ _ Hhost).
  - done.
  - eexists. by split.
  - eexists. by split.
Qed.

(** C10: [WithTracerProvider(nil)] and [WithPropagators(nil)] change no
    field of the configuration they are applied to, so that [newConfig]
    resolves an option list that holds one of them as it resolves the list
    without it. *)
Theorem nil_provider_and_propagators_are_ignored (go : Runtime)
  (before after : list Option) (cfg : config) :
  apply (WithTracerProvider None) cfg = cfg
  /\ apply (WithPropagators None) cfg = cfg
  /\ newConfig go (before ++ WithTracerProvider None :: after)
     = newConfig go (before ++ after)
  /\ newConfig go (before ++ WithPropagators None :: after)
     = newConfig go (before ++ after).
Proof.
  split; [done|split; [done|]].
  unfold newConfig. by rewrite !fold_left_app.
Qed.

(** ** The event log of the receive steps *)

Lemma resolved_inv (cfg : config) :
  resolved cfg = true ->
  exists t m p,
    Tracer cfg = Some t /\ Meter cfg = Some m /\ Propagators cfg = Some p.
Proof.
  unfold resolved.
  destruct (Tracer cfg) as [t|], (Meter cfg) as [m|], (Propagators cfg) as [p|];
    try done.
  intros _. by exists t, m, p.
Qed.

Section Log.

Variables (go : Runtime) (t : trace.Tracer) (m : metric.Meter)
  (p : propagation.TextMapPropagator) (defaults : list KeyValue).

Lemma sent_receiveAll (span tick : nat) (msgs : list sarama.ConsumerMessage) :
  sent (receiveAll go t m p defaults span tick msgs) = msgs.
Proof.
  revert span tick. induction msgs as [|msg msgs IH]; intros span tick; [done|].
  simpl. f_equal. apply IH.
Qed.

Lemma started_receiveAll (span tick : nat) (msgs : list sarama.ConsumerMessage) :
  started (receiveAll go t m p defaults span tick msgs) = seq span (length msgs).
Proof.
  revert span tick. induction msgs as [|msg msgs IH]; intros span tick; [done|].
  simpl. f_equal. apply IH.
Qed.

Lemma ended_receiveAll (span tick : nat) (msgs : list sarama.ConsumerMessage) :
  ended (receiveAll go t m p defaults span tick msgs) = seq span (length msgs).
Proof.
  revert span tick. induction msgs as [|msg msgs IH]; intros span tick; [done|].
  simpl. f_equal. apply IH.
Qed.

Lemma open_receiveAll (span tick : nat) (msgs : list sarama.ConsumerMessage) :
  Forall (fun e => isClose e = false)
    (receiveAll go t m p defaults span tick msgs).
Proof.
  revert span tick. induction msgs as [|msg msgs IH]; intros span tick; simpl.
  - constructor.
  - repeat (constructor; [done|]). apply IH.
Qed.

Lemma spanAttributes_receiveAll (span tick : nat)
  (msgs : list sarama.ConsumerMessage) :
  spanAttributes (receiveAll go t m p defaults span tick msgs)
  = map (fun msg => defaults ++ destination msg ++ [messageID msg]) msgs.
Proof.
  revert span tick. induction msgs as [|msg msgs IH]; intros span tick; [done|].
  simpl. rewrite <- app_assoc. f_equal. apply IH.
Qed.

Lemma recorded_receiveAll (span tick : nat)
  (msgs : list sarama.ConsumerMessage) :
  map (fun r => (r.1.1, r.2))
    (recorded (receiveAll go t m p defaults span tick msgs))
  = map (fun msg =>
           (metric.Float64Histogram m "messaging.client.operation.duration" "s",
            defaults ++ destination msg)) msgs.
Proof.
  revert span tick. induction msgs as [|msg msgs IH]; intros span tick; [done|].
  simpl. f_equal. apply IH.
Qed.

Lemma added_receiveAll (span tick : nat) (msgs : list sarama.ConsumerMessage) :
  added (receiveAll go t m p defaults span tick msgs)
  = map (fun msg =>
           (metric.Int64Counter m "messaging.client.consumed.messages", 1%Z,
            defaults ++ destination msg)) msgs.
Proof.
  revert span tick. induction msgs as [|msg msgs IH]; intros span tick; [done|].
  simpl. f_equal. apply IH.
Qed.

End Log.

Lemma hasKey_app (k : string) (l1 l2 : list KeyValue) :
  hasKey k (l1 ++ l2) = hasKey k l1 || hasKey k l2.
Proof. apply existsb_app. Qed.

Lemma receiveDefaults_no_message_id (cfg : config) :
  hasKey "messaging.message.id" (receiveDefaults cfg) = false.
Proof.
  unfold receiveDefaults. rewrite !hasKey_app.
  by destruct (negb (String.eqb (ServerAddress cfg) EmptyString)),
       (negb (Z.eqb (ServerPort cfg) 0)),
       (negb (String.eqb (ConsumerGroupID cfg) EmptyString)).
Qed.

(** ** dispatcher.go: the wrapper built and run *)

(** The wrapper is built without a panic, [Run] returns, and the events
    of the run are the receive steps of the messages, in the order the
    upstream channel delivers them, followed by the close of the output
    channel; the default attributes hold the same elements before and
    after. *)
Lemma wrapper_runs (go : Runtime) (d : list sarama.ConsumerMessage)
  (cfg : config) (t : trace.Tracer) (m : metric.Meter)
  (p : propagation.TextMapPropagator) (world : World) :
  Tracer cfg = Some t -> Meter cfg = Some m -> Propagators cfg = Some p ->
  exists w world1 world2,
    newConsumerMessagesDispatcherWrapper go d cfg world = (Ok w, world1)
    /\ Run go w world1 = (Ok tt, world2)
    /\ Wrapper.d w = d
    /\ events world1 = events world
    /\ events world2
       = events world
         ++ receiveAll go t m p (receiveDefaults cfg) (nextSpan world)
              (ticks world) d
         ++ [Close]
    /\ elems (Wrapper.defaultAttributes w) (heap world1) = receiveDefaults cfg
    /\ elems (Wrapper.defaultAttributes w) (heap world2) = receiveDefaults cfg.
Proof.
  intros Ht Hm Hp.
  destruct (newConsumerMessagesDispatcherWrapper_eq go d cfg m world Hm)
    as (ds & h1 & E1 & Hb1 & Hel1).
  set (w := Wrapper.mk d
              (Some (metric.Float64Histogram m
                       "messaging.client.operation.duration" "s"))
              (Some (metric.Int64Counter m "messaging.client.consumed.messages"))
              ds cfg) in *.
  destruct (Run_eq go w t m p
              (mkWorld h1 (nextSpan world) (ticks world) (events world)))
    as (h2 & E2 & Hb2 & Hel2); [done|done|].
  eexists w, _, _. split; [exact E1|]. split; [exact E2|].
  simpl in *. rewrite Hel1 in *. done.
Qed.

(** C3: whatever the finite sequence of messages that the upstream channel
    delivers, the wrapper puts exactly these messages on its output
    channel, as many, in the same order and unchanged. *)
Theorem Run_forwards_every_message (go : Runtime)
  (d : list sarama.ConsumerMessage) (cfg : config) (world : World) :
  resolved cfg = true ->
  exists w world1 world2 tr,
    newConsumerMessagesDispatcherWrapper go d cfg world = (Ok w, world1)
    /\ Run go w world1 = (Ok tt, world2)
    /\ events world2 = events world1 ++ tr
    /\ sent tr = d
    /\ length (sent tr) = length d.
Proof.
  intros Hcfg. destruct (resolved_inv cfg Hcfg) as (t & m & p & Ht & Hm & Hp).
  destruct (wrapper_runs go d cfg t m p world Ht Hm Hp)
    as (w & world1 & world2 & E1 & E2 & _ & Hev1 & Hev2 & _).
  eexists w, world1, world2, _. split; [done|]. split; [done|].
  split; [by rewrite Hev1|].
  assert (sent (receiveAll go t m p (receiveDefaults cfg) (nextSpan world)
                  (ticks world) d ++ [Close]) = d) as Hsent.
  { unfold sent. rewrite omap_app. fold (sent [Close]).
    fold (sent (receiveAll go t m p (receiveDefaults cfg) (nextSpan world)
                  (ticks world) d)).
    rewrite sent_receiveAll. simpl. apply app_nil_r. }
  split; [done|by rewrite Hsent].
Qed.

(** C6: when the upstream channel closes after the messages [d], the
    wrapper closes its output channel, once, as the last thing it does:
    every message of [d] has been put on the output channel before, and
    every span started has been ended before. *)
Theorem Run_closes_after_the_last_message (go : Runtime)
  (d : list sarama.ConsumerMessage) (cfg : config) (world : World) :
  resolved cfg = true ->
  exists w world1 world2 tr,
    newConsumerMessagesDispatcherWrapper go d cfg world = (Ok w, world1)
    /\ Run go w world1 = (Ok tt, world2)
    /\ events world2 = events world1 ++ tr ++ [Close]
    /\ Forall (fun e => isClose e = false) tr
    /\ sent tr = d
    /\ length (started tr) = length d
    /\ ended tr = started tr
    /\ (forall pre post,
          tr ++ [Close] = pre ++ Close :: post -> pre = tr /\ post = []).
Proof.
  intros Hcfg. destruct (resolved_inv cfg Hcfg) as (t & m & p & Ht & Hm & Hp).
  destruct (wrapper_runs go d cfg t m p world Ht Hm Hp)
    as (w & world1 & world2 & E1 & E2 & _ & Hev1 & Hev2 & _).
  eexists w, world1, world2, _. split; [done|]. split; [done|].
  split; [by rewrite Hev1|].
  pose proof (open_receiveAll go t m p (receiveDefaults cfg) (nextSpan world)
                (ticks world) d) as Hopen.
  split; [done|]. split; [apply sent_receiveAll|].
  split; [by rewrite started_receiveAll, length_seq|].
  split; [by rewrite ended_receiveAll, started_receiveAll|].
  intros pre post Hsplit.
  revert Hopen pre Hsplit.
  generalize (receiveAll go t m p (receiveDefaults cfg) (nextSpan world)
                (ticks world) d) as tr.
  induction tr as [|e tr IH]; intros Hopen pre Hsplit.
  - destruct pre as [|e' pre]; simpl in Hsplit.
    + by inversion Hsplit.
    + inversion Hsplit as [[He Hrest]]. by destruct pre.
  - inversion Hopen as [|? ? He Htr]; subst.
    destruct pre as [|e' pre]; simpl in Hsplit.
    + inversion Hsplit; subst. done.
    + inversion Hsplit as [[He' Hrest]]; subst.
      destruct (IH Htr pre Hrest) as [-> ->]. done.
Qed.

(** C7: the events of a run are, message after message in the order of
    arrival, the five receive steps of the message in their order (span
    started, message forwarded, span ended, duration recorded, message
    counted), and then the close of the output channel. *)
Theorem Run_steps_in_order (go : Runtime) (d : list sarama.ConsumerMessage)
  (cfg : config) (world : World) :
  resolved cfg = true ->
  exists t m p w world1 world2,
    Tracer cfg = Some t /\ Meter cfg = Some m /\ Propagators cfg = Some p
    /\ newConsumerMessagesDispatcherWrapper go d cfg world = (Ok w, world1)
    /\ Run go w world1 = (Ok tt, world2)
    /\ events world2
       = events world1
         ++ receiveAll go t m p (receiveDefaults cfg) (nextSpan world1)
              (ticks world1) d
         ++ [Close].
Proof.
  intros Hcfg. destruct (resolved_inv cfg Hcfg) as (t & m & p & Ht & Hm & Hp).
  destruct (newConsumerMessagesDispatcherWrapper_eq go d cfg m world Hm)
    as (ds & h1 & E1 & Hb1 & Hel1).
  destruct (wrapper_runs go d cfg t m p world Ht Hm Hp)
    as (w & world1 & world2 & E1' & E2 & _ & Hev1 & Hev2 & _).
  exists t, m, p, w, world1, world2. repeat (split; [done|]).
  rewrite E1 in E1'. inversion E1'; subst. simpl. done.
Qed.

(** C8: in a run over the messages [d], the duration histogram and the
    message counter each get one measurement per message, in order, with
    the default attributes followed by destination and partition, among
    which there is no message id; the span of each message gets these
    attributes followed by the message id, which is the offset. *)
Theorem Run_measures_each_message_once (go : Runtime)
  (d : list sarama.ConsumerMessage) (cfg : config) (world : World) :
  resolved cfg = true ->
  exists m w world1 world2 tr,
    Meter cfg = Some m
    /\ newConsumerMessagesDispatcherWrapper go d cfg world = (Ok w, world1)
    /\ Run go w world1 = (Ok tt, world2)
    /\ events world2 = events world1 ++ tr
    /\ map (fun r => (r.1.1, r.2)) (recorded tr)
       = map (fun msg =>
                (metric.Float64Histogram m
                   "messaging.client.operation.duration" "s",
                 receiveDefaults cfg ++ destination msg)) d
    /\ added tr
       = map (fun msg =>
                (metric.Int64Counter m "messaging.client.consumed.messages",
                 1%Z, receiveDefaults cfg ++ destination msg)) d
    /\ spanAttributes tr
       = map (fun msg =>
                receiveDefaults cfg ++ destination msg
                ++ [attribute.String "messaging.message.id"
                      (strconv.FormatInt (sarama.Offset msg))]) d
    /\ forall msg,
         hasKey "messaging.message.id" (receiveDefaults cfg ++ destination msg)
         = false.
Proof.
  intros Hcfg. destruct (resolved_inv cfg Hcfg) as (t & m & p & Ht & Hm & Hp).
  destruct (wrapper_runs go d cfg t m p world Ht Hm Hp)
    as (w & world1 & world2 & E1 & E2 & _ & Hev1 & Hev2 & _).
  eexists m, w, world1, world2, _. repeat (split; [done|]).
  split; [by rewrite Hev1|].
  split; [|split; [|split]].
  - unfold recorded. rewrite omap_app. simpl. rewrite app_nil_r.
    apply recorded_receiveAll.
  - unfold added. rewrite omap_app. simpl. rewrite app_nil_r.
    apply added_receiveAll.
  - unfold spanAttributes. rewrite omap_app. simpl. rewrite app_nil_r.
    apply spanAttributes_receiveAll.
  - intros msg. rewrite hasKey_app, receiveDefaults_no_message_id. done.
Qed.

(** ** process_operation.go: operations opened, annotated and stopped *)

Section Use.

Variables (go : Runtime) (i : MessageProcessInstrumenter) (t : trace.Tracer)
  (p : propagation.TextMapPropagator) (defaults : list KeyValue).

Hypothesis tracer : Tracer (Instrumenter.cfg i) = Some t.
Hypothesis codec : Propagators (Instrumenter.cfg i) = Some p.

Lemma use_sound (st st' : World * list MessageProcessOperation) :
  use go i st st' -> sound i defaults st -> sound i defaults st'.
Proof.
  intros Hstep (Hb & Hel & Hops).
  destruct Hstep as [w ops msg op w' Hopen|w ops op e Hin|w ops op r w' Hin Hstop];
    simpl in *.
  - destruct (NewProcessOperation_eq go i t p msg w tracer codec Hb)
      as (h' & E & Hb' & Hel').
    rewrite E in Hopen. injection Hopen as <- <-. simpl.
    split; [done|]. split; [simpl; congruence|].
    constructor; [|done]. simpl. eauto.
  - split; [done|]. split; [done|]. constructor; [|done].
    apply list_elem_of_In in Hin.
    by destruct (proj1 (Forall_forall _ _) Hops op Hin).
  - apply list_elem_of_In in Hin.
    destruct (proj1 (Forall_forall _ _) Hops op Hin) as [Hz [s Hs]].
    destruct (Stop_zero_eq go op s w Hz Hs) as (h' & E & Hk).
    rewrite E in Hstop. injection Hstop as <- <-. simpl.
    destruct (Hk _ Hb) as [Hb' Hel'].
    split; [done|]. split; [simpl; congruence|done].
Qed.

Lemma uses_sound (st st' : World * list MessageProcessOperation) :
  rtc (use go i) st st' -> sound i defaults st -> sound i defaults st'.
Proof.
  induction 1 as [|st1 st2 st3 Hstep _ IH]; [done|].
  intros Hst. by apply IH, (use_sound st1).
Qed.

Lemma uses_keep_defaults (w w' : World) (ops : list MessageProcessOperation) :
  backed (heap w) (Instrumenter.defaultAttributes i) ->
  elems (Instrumenter.defaultAttributes i) (heap w) = defaults ->
  rtc (use go i) (w, []) (w', ops) ->
  elems (Instrumenter.defaultAttributes i) (heap w') = defaults.
Proof.
  intros Hb Hel Hrun.
  destruct (uses_sound _ _ Hrun) as (_ & Hel' & _); [|done].
  split; [done|]. split; [done|]. constructor.
Qed.

End Use.

(** C9: the elements of the default attributes are those given at
    construction, whatever is done afterwards: the wrapper's after a run
    over any messages, the instrumenter's after any number of operations
    opened, given an error and stopped. *)
Theorem default_attributes_are_never_mutated (go : Runtime)
  (d : list sarama.ConsumerMessage) (cfg : config) (opts : list Option)
  (world : World) :
  resolved cfg = true ->
  resolves go opts = true ->
  (exists w world1 world2,
     newConsumerMessagesDispatcherWrapper go d cfg world = (Ok w, world1)
     /\ Run go w world1 = (Ok tt, world2)
     /\ elems (Wrapper.defaultAttributes w) (heap world1) = receiveDefaults cfg
     /\ elems (Wrapper.defaultAttributes w) (heap world2)
        = elems (Wrapper.defaultAttributes w) (heap world1))
  /\ (exists cfg' i world1,
        newConfig go opts = Ok cfg'
        /\ NewMessageProcessInstrumenter go opts world = (Ok i, world1)
        /\ elems (Instrumenter.defaultAttributes i) (heap world1)
           = processDefaults cfg'
        /\ forall world2 ops,
             rtc (use go i) (world1, []) (world2, ops) ->
             elems (Instrumenter.defaultAttributes i) (heap world2)
             = elems (Instrumenter.defaultAttributes i) (heap world1)).
Proof.
  intros Hcfg Hopts. split.
  - destruct (resolved_inv cfg Hcfg) as (t & m & p & Ht & Hm & Hp).
    destruct (wrapper_runs go d cfg t m p world Ht Hm Hp)
      as (w & world1 & world2 & E1 & E2 & _ & _ & _ & Hel1 & Hel2).
    exists w, world1, world2. repeat (split; [done|]). congruence.
  - destruct (resolves_inv go opts Hopts) as (cfg' & Hnew & Hres).
    destruct (resolved_inv cfg' Hres) as (t & m & p & Ht & Hm & Hp).
    destruct (NewMessageProcessInstrumenter_eq go opts cfg' m world Hnew Hm)
      as (ds & h1 & E1 & Hb1 & Hel1).
    set (i := Instrumenter.mk cfg'
                (Some (metric.Float64Histogram m
                         "messaging.client.process.duration" "s")) ds) in *.
    eexists cfg', i, _. split; [done|]. split; [exact E1|].
    split; [done|]. intros world2 ops Hrun. simpl.
    rewrite Hel1.
    exact (uses_keep_defaults go i t p (processDefaults cfg') Ht Hp
             (mkWorld h1 (nextSpan world) (ticks world) (events world))
             world2 ops Hb1 Hel1 Hrun).
Qed.

(** ** Parent and links of the spans *)

Lemma spanStarts_receiveAll (go : Runtime) (t : trace.Tracer)
  (m : metric.Meter) (p : propagation.TextMapPropagator)
  (defaults : list KeyValue) (span tick : nat)
  (msgs : list sarama.ConsumerMessage) :
  Forall2
    (fun msg e =>
       linkedAndParented
         (propagation.Extract p Background (NewConsumerMessageCarrier msg)) e)
    msgs (spanStarts (receiveAll go t m p defaults span tick msgs)).
Proof.
  revert span tick. induction msgs as [|msg msgs IH]; intros span tick.
  - constructor.
  - simpl. constructor; [|apply IH]. by repeat split.
Qed.

Lemma spanStarts_app (tr1 tr2 : list Event) :
  spanStarts (tr1 ++ tr2) = spanStarts tr1 ++ spanStarts tr2.
Proof. apply List.filter_app. Qed.

(** C1, as the code has it: the receive span of every message of a run and
    the process span of every message are started with the context
    extracted from the headers of the message as their parent context and
    without [WithNewRoot], so that they are children of the extracted span
    context when it is valid and root spans otherwise; they carry one link,
    to the same context. *)
Theorem spans_are_parented_and_linked (go : Runtime)
  (d : list sarama.ConsumerMessage) (cfg : config) (opts : list Option)
  (msg : sarama.ConsumerMessage) (world : World) :
  resolved cfg = true ->
  resolves go opts = true ->
  (exists p w world1 world2 tr,
     Propagators cfg = Some p
     /\ newConsumerMessagesDispatcherWrapper go d cfg world = (Ok w, world1)
     /\ Run go w world1 = (Ok tt, world2)
     /\ events world2 = events world1 ++ tr
     /\ Forall2
          (fun msg e =>
             linkedAndParented
               (propagation.Extract p Background (NewConsumerMessageCarrier msg))
               e)
          d (spanStarts tr))
  /\ (exists cfg' p i world1 op world2 e,
        newConfig go opts = Ok cfg'
        /\ Propagators cfg' = Some p
        /\ NewMessageProcessInstrumenter go opts world = (Ok i, world1)
        /\ NewProcessOperation go i msg world1 = (Ok op, world2)
        /\ events world2 = events world1 ++ [e]
        /\ linkedAndParented
             (propagation.Extract p Background (NewConsumerMessageCarrier msg))
             e).
Proof.
  intros Hcfg Hopts. split.
  - destruct (resolved_inv cfg Hcfg) as (t & m & p & Ht & Hm & Hp).
    destruct (wrapper_runs go d cfg t m p world Ht Hm Hp)
      as (w & world1 & world2 & E1 & E2 & _ & Hev1 & Hev2 & _).
    eexists p, w, world1, world2, _. repeat (split; [done|]).
    split; [by rewrite Hev1|].
    rewrite spanStarts_app. simpl. rewrite app_nil_r.
    apply spanStarts_receiveAll.
  - destruct (resolves_inv go opts Hopts) as (cfg' & Hnew & Hres).
    destruct (resolved_inv cfg' Hres) as (t & m & p & Ht & Hm & Hp).
    destruct (NewMessageProcessInstrumenter_eq go opts cfg' m world Hnew Hm)
      as (ds & h1 & E1 & Hb1 & Hel1).
    set (i := Instrumenter.mk cfg'
                (Some (metric.Float64Histogram m
                         "messaging.client.process.duration" "s")) ds) in *.
    destruct (NewProcessOperation_eq go i t p msg
                (mkWorld h1 (nextSpan world) (ticks world) (events world))
                Ht Hp Hb1)
      as (h2 & E2 & _).
    eexists cfg', p, i, _, _, _, _. split; [done|]. split; [done|].
    split; [exact E1|]. split; [exact E2|]. split; [done|].
    by repeat split.
Qed.

(** ** The operation that [NewProcessOperation] returns, stopped *)

(** [Stop] on an operation that has its instrumenter: the span is ended and
    the duration is recorded on the histogram of the instrumenter, with its
    default attributes followed by destination and partition and, when an
    error was set, by the error type. *)
Lemma Stop_eq (go : Runtime) (op : MessageProcessOperation) (s : nat)
  (h : metric.Instrument) (world : World) :
  Operation.span op = Some s ->
  Instrumenter.metricProcessDuration (Operation.instrumenter op) = Some h ->
  backed (heap world)
    (Instrumenter.defaultAttributes (Operation.instrumenter op)) ->
  exists h',
    Stop go op world
    = (Ok tt,
       mkWorld h' (nextSpan world) (S (ticks world))
         (events world
          ++ [SpanEnd s;
              Measure h
                (Seconds (Sub (clock go (ticks world)) (Operation.start op)))
                (elems (Instrumenter.defaultAttributes (Operation.instrumenter op))
                   (heap world)
                 ++ [semconv.MessagingDestinationName (Operation.topic op);
                     attribute.String "messaging.destination.partition.id"
                       (Operation.partition op)]
                 ++ match Operation.err op with
                    | Some e => [attribute.String "error.type" (Error e)]
                    | None => []
                    end)])).
Proof.
  intros Hs Hh Hb. unfold Stop. rewrite Hs, Hh.
  erewrite bind_Ok by reflexivity.
  set (w1 := mkWorld (heap world) (nextSpan world) (ticks world)
               (events world ++ [SpanEnd s])).
  destruct (append_eq go
              (Instrumenter.defaultAttributes (Operation.instrumenter op))
              [semconv.MessagingDestinationName (Operation.topic op);
               attribute.String "messaging.destination.partition.id"
                 (Operation.partition op)] w1 Hb)
    as (attrs & h1 & E1 & Hel1 & _ & Hb1 & _ & _).
  erewrite bind_Ok by exact E1.
  destruct (Operation.err op) as [e|].
  - destruct (append_eq go attrs [attribute.String "error.type" (Error e)]
                (mkWorld h1 (nextSpan w1) (ticks w1) (events w1)) Hb1)
      as (attrs2 & h2 & E2 & Hel2 & _ & _ & _ & _).
    erewrite bind_Ok by exact E2.
    erewrite bind_Ok by reflexivity.
    erewrite bind_Ok by reflexivity.
    exists h2. unfold Histogram_Record, emit. simpl in *.
    rewrite Hel2, Hel1, <- !app_assoc. done.
  - erewrite bind_Ok by reflexivity.
    erewrite bind_Ok by reflexivity.
    erewrite bind_Ok by reflexivity.
    exists h1. unfold Histogram_Record, emit. simpl in *.
    rewrite Hel1, <- !app_assoc. done.
Qed.

(** C2, at the operations the package returns: [NewProcessOperation]
    leaves the [instrumenter] of the operation at its zero value, so that
    [Stop] ends the span and then panics on the nil histogram, with no
    duration recorded. *)
Theorem Stop_panics_on_the_nil_histogram (go : Runtime) (opts : list Option)
  (msg : sarama.ConsumerMessage) (e : option error) (world : World) :
  resolves go opts = true ->
  exists i world1 op world2 world3 s,
    NewMessageProcessInstrumenter go opts world = (Ok i, world1)
    /\ is_Some (Instrumenter.metricProcessDuration i)
    /\ NewProcessOperation go i msg world1 = (Ok op, world2)
    /\ Operation.instrumenter op = Instrumenter.zero
    /\ Stop go (SetError op e) world2 = (Panic, world3)
    /\ events world3 = events world2 ++ [SpanEnd s]
    /\ recorded (events world3) = recorded (events world).
Proof.
  intros Hopts.
  destruct (resolves_inv go opts Hopts) as (cfg' & Hnew & Hres).
  destruct (resolved_inv cfg' Hres) as (t & m & p & Ht & Hm & Hp).
  destruct (NewMessageProcessInstrumenter_eq go opts cfg' m world Hnew Hm)
    as (ds & h1 & E1 & Hb1 & Hel1).
  set (i := Instrumenter.mk cfg'
              (Some (metric.Float64Histogram m
                       "messaging.client.process.duration" "s")) ds) in *.
  destruct (NewProcessOperation_eq go i t p msg
              (mkWorld h1 (nextSpan world) (ticks world) (events world))
              Ht Hp Hb1)
    as (h2 & E2 & _).
  match type of E2 with
  | _ = (Ok ?o, ?w2) => set (op := o) in *; set (world2 := w2) in *
  end.
  destruct (Stop_zero_eq go (SetError op e) (nextSpan world) world2)
    as (h3 & E3 & _); [done|done|].
  eexists i, _, op, world2, _, _. split; [exact E1|]. split; [by eexists|].
  split; [exact E2|]. split; [done|]. split; [exact E3|]. split; [done|].
  simpl. unfold recorded. rewrite !omap_app. simpl. by rewrite !app_nil_r.
Qed.

(** C5, at the operations the package returns: with an error set before
    [Stop] as without one, [Stop] panics on the nil histogram before a
    measurement is made, so that no attribute set is recorded and no error
    type with it. *)
Theorem Stop_after_SetError_records_nothing :
  exists i world1 op world2 world3 world3',
    NewMessageProcessInstrumenter Sample.runtime Sample.options Sample.world0
    = (Ok i, world1)
    /\ NewProcessOperation Sample.runtime i Sample.traced world1 = (Ok op, world2)
    /\ Stop Sample.runtime (SetError op (Some Sample.boom)) world2
       = (Panic, world3)
    /\ recorded (events world3) = []
    /\ Stop Sample.runtime op world2 = (Panic, world3')
    /\ recorded (events world3') = [].
Proof.
  eexists _, _, _, _, _, _.
  split; [vm_compute; reflexivity|].
  split; [vm_compute; reflexivity|].
  split; [vm_compute; reflexivity|].
  split; [reflexivity|].
  split; [vm_compute; reflexivity|].
  reflexivity.
Qed.

(** ** The code run on the sample data *)

Example Split_host_port :
  strings.Split "localhost:9092" ":" = ["localhost"; "9092"].
Proof. reflexivity. Qed.

Example Split_no_separator : strings.Split "broker" ":" = ["broker"].
Proof. reflexivity. Qed.

Example Split_ipv6 :
  strings.Split "[::1]:9092" ":" = ["["; EmptyString; "1]"; "9092"].
Proof. reflexivity. Qed.

Example Atoi_port : strconv.Atoi "9092" = Some 9092%Z.
Proof. reflexivity. Qed.

Example Atoi_rejects :
  strconv.Atoi "90a2" = None /\ strconv.Atoi EmptyString = None
  /\ strconv.Atoi "-" = None /\ strconv.Atoi "9223372036854775808" = None.
Proof. repeat split; reflexivity. Qed.

Example FormatInt_samples :
  strconv.FormatInt 0 = "0" /\ strconv.FormatInt 42 = "42"
  /\ strconv.FormatInt (-7) = "-7".
Proof. repeat split; reflexivity. Qed.

Example options_resolved : resolved Sample.cfg = true.
Proof. reflexivity. Qed.

(** With server address, server port and consumer group configured, the
    default attributes of the wrapper have spare capacity, and [append]
    writes the attributes of each message into their array, past their
    length. *)
Example receive_appends_in_place :
  exists w world1 world2,
    newConsumerMessagesDispatcherWrapper Sample.runtime [Sample.traced]
      Sample.cfg Sample.world0 = (Ok w, world1)
    /\ Run Sample.runtime w world1 = (Ok tt, world2)
    /\ len (Wrapper.defaultAttributes w) = 5%nat
    /\ cap (Wrapper.defaultAttributes w) = 8%nat
    /\ heap world1 !! array (Wrapper.defaultAttributes w)
       = Some (receiveDefaults Sample.cfg ++ replicate 3 attribute.zero)
    /\ heap world2 !! array (Wrapper.defaultAttributes w)
       = Some (receiveDefaults Sample.cfg ++ destination Sample.traced
               ++ [messageID Sample.traced]).
Proof.
  eexists _, _, _.
  split; [vm_compute; reflexivity|].
  split; [vm_compute; reflexivity|].
  repeat split; vm_compute; reflexivity.
Qed.

(** C1, refuted as stated: the message [Sample.traced] carries a valid
    trace context in its headers, and the receive span that the wrapper
    starts for it is a child of that context. *)
Lemma traced_receive_span_is_a_child :
  exists w world1 world2 e rest,
    newConsumerMessagesDispatcherWrapper Sample.runtime [Sample.traced]
      Sample.cfg Sample.world0 = (Ok w, world1)
    /\ Run Sample.runtime w world1 = (Ok tt, world2)
    /\ events world2 = e :: rest
    /\ ~ linkedNotParented
           (propagation.Extract Sample.traceContext Background
              (NewConsumerMessageCarrier Sample.traced)) e.
Proof.
  eexists _, _, _, _, _.
  split; [vm_compute; reflexivity|].
  split; [vm_compute; reflexivity|].
  split; [reflexivity|].
  intros [Hparent _]. apply Hparent. reflexivity.
Qed.

(** ** Instances of the theorems on the sample data *)

Lemma spans_are_parented_and_linked_witness :
  (exists p w world1 world2 tr,
     Propagators Sample.cfg = Some p
     /\ newConsumerMessagesDispatcherWrapper Sample.runtime
          [Sample.traced; Sample.untraced] Sample.cfg Sample.world0
        = (Ok w, world1)
     /\ Run Sample.runtime w world1 = (Ok tt, world2)
     /\ events world2 = events world1 ++ tr
     /\ Forall2
          (fun msg e =>
             linkedAndParented
               (propagation.Extract p Background (NewConsumerMessageCarrier msg))
               e)
          [Sample.traced; Sample.untraced] (spanStarts tr))
  /\ (exists cfg' p i world1 op world2 e,
        newConfig Sample.runtime Sample.options = Ok cfg'
        /\ Propagators cfg' = Some p
        /\ NewMessageProcessInstrumenter Sample.runtime Sample.options
             Sample.world0 = (Ok i, world1)
        /\ NewProcessOperation Sample.runtime i Sample.traced world1
           = (Ok op, world2)
        /\ events world2 = events world1 ++ [e]
        /\ linkedAndParented
             (propagation.Extract p Background
                (NewConsumerMessageCarrier Sample.traced))
             e).
Proof.
  apply (spans_are_parented_and_linked Sample.runtime
           [Sample.traced; Sample.untraced] Sample.cfg Sample.options
           Sample.traced Sample.world0).
  - reflexivity.
  - reflexivity.
Defined.

Lemma Stop_panics_on_the_nil_histogram_witness :
  exists i world1 op world2 world3 s,
    NewMessageProcessInstrumenter Sample.runtime Sample.options Sample.world0
    = (Ok i, world1)
    /\ is_Some (Instrumenter.metricProcessDuration i)
    /\ NewProcessOperation Sample.runtime i Sample.untraced world1
       = (Ok op, world2)
    /\ Operation.instrumenter op = Instrumenter.zero
    /\ Stop Sample.runtime (SetError op None) world2 = (Panic, world3)
    /\ events world3 = events world2 ++ [SpanEnd s]
    /\ recorded (events world3) = recorded (events Sample.world0).
Proof.
  apply (Stop_panics_on_the_nil_histogram Sample.runtime Sample.options
           Sample.untraced None Sample.world0).
  reflexivity.
Defined.

Lemma Run_forwards_every_message_witness :
  exists w world1 world2 tr,
    newConsumerMessagesDispatcherWrapper Sample.runtime
      [Sample.traced; Sample.untraced] Sample.cfg Sample.world0
    = (Ok w, world1)
    /\ Run Sample.runtime w world1 = (Ok tt, world2)
    /\ events world2 = events world1 ++ tr
    /\ sent tr = [Sample.traced; Sample.untraced]
    /\ length (sent tr) = length [Sample.traced; Sample.untraced].
Proof.
  apply (Run_forwards_every_message Sample.runtime
           [Sample.traced; Sample.untraced] Sample.cfg Sample.world0).
  reflexivity.
Defined.

Lemma WithBrokerAddresses_resolves_witness :
  ServerAddress (apply (WithBrokerAddresses ["kafka-1:9093"]) Sample.cfg)
  = "kafka-1"
  /\ ServerPort (apply (WithBrokerAddresses ["kafka-1:9093"]) Sample.cfg)
     = 9093%Z.
Proof.
  destruct (WithBrokerAddresses_resolves Sample.runtime "kafka-1" "9093"
              "a:9092" "b:9093" [] Sample.cfg) as [[Haddr Hport] _].
  - reflexivity.
  - reflexivity.
  - split; [exact Haddr|exact Hport].
Defined.

Lemma Run_closes_after_the_last_message_witness :
  exists w world1 world2 tr,
    newConsumerMessagesDispatcherWrapper Sample.runtime
      [Sample.traced; Sample.untraced] Sample.cfg Sample.world0
    = (Ok w, world1)
    /\ Run Sample.runtime w world1 = (Ok tt, world2)
    /\ events world2 = events world1 ++ tr ++ [Close]
    /\ Forall (fun e => isClose e = false) tr
    /\ sent tr = [Sample.traced; Sample.untraced]
    /\ length (started tr) = length [Sample.traced; Sample.untraced]
    /\ ended tr = started tr
    /\ (forall pre post,
          tr ++ [Close] = pre ++ Close :: post -> pre = tr /\ post = []).
Proof.
  apply (Run_closes_after_the_last_message Sample.runtime
           [Sample.traced; Sample.untraced] Sample.cfg Sample.world0).
  reflexivity.
Defined.

Lemma Run_steps_in_order_witness :
  exists t m p w world1 world2,
    Tracer Sample.cfg = Some t /\ Meter Sample.cfg = Some m
    /\ Propagators Sample.cfg = Some p
    /\ newConsumerMessagesDispatcherWrapper Sample.runtime
         [Sample.traced; Sample.untraced] Sample.cfg Sample.world0
       = (Ok w, world1)
    /\ Run Sample.runtime w world1 = (Ok tt, world2)
    /\ events world2
       = events world1
         ++ receiveAll Sample.runtime t m p (receiveDefaults Sample.cfg)
              (nextSpan world1) (ticks world1) [Sample.traced; Sample.untraced]
         ++ [Close].
Proof.
  apply (Run_steps_in_order Sample.runtime [Sample.traced; Sample.untraced]
           Sample.cfg Sample.world0).
  reflexivity.
Defined.

Lemma Run_measures_each_message_once_witness :
  exists m w world1 world2 tr,
    Meter Sample.cfg = Some m
    /\ newConsumerMessagesDispatcherWrapper Sample.runtime [Sample.traced]
         Sample.cfg Sample.world0
       = (Ok w, world1)
    /\ Run Sample.runtime w world1 = (Ok tt, world2)
    /\ events world2 = events world1 ++ tr
    /\ map (fun r => (r.1.1, r.2)) (recorded tr)
       = map (fun msg =>
                (metric.Float64Histogram m
                   "messaging.client.operation.duration" "s",
                 receiveDefaults Sample.cfg ++ destination msg)) [Sample.traced]
    /\ added tr
       = map (fun msg =>
                (metric.Int64Counter m "messaging.client.consumed.messages",
                 1%Z, receiveDefaults Sample.cfg ++ destination msg))
           [Sample.traced]
    /\ spanAttributes tr
       = map (fun msg =>
                receiveDefaults Sample.cfg ++ destination msg
                ++ [attribute.String "messaging.message.id"
                      (strconv.FormatInt (sarama.Offset msg))]) [Sample.traced]
    /\ forall msg,
         hasKey "messaging.message.id"
           (receiveDefaults Sample.cfg ++ destination msg)
         = false.
Proof.
  apply (Run_measures_each_message_once Sample.runtime [Sample.traced]
           Sample.cfg Sample.world0).
  reflexivity.
Defined.

Lemma default_attributes_are_never_mutated_witness :
  (exists w world1 world2,
     newConsumerMessagesDispatcherWrapper Sample.runtime
       [Sample.traced; Sample.untraced] Sample.cfg Sample.world0
     = (Ok w, world1)
     /\ Run Sample.runtime w world1 = (Ok tt, world2)
     /\ elems (Wrapper.defaultAttributes w) (heap world1)
        = receiveDefaults Sample.cfg
     /\ elems (Wrapper.defaultAttributes w) (heap world2)
        = elems (Wrapper.defaultAttributes w) (heap world1))
  /\ (exists cfg' i world1,
        newConfig Sample.runtime Sample.options = Ok cfg'
        /\ NewMessageProcessInstrumenter Sample.runtime Sample.options
             Sample.world0 = (Ok i, world1)
        /\ elems (Instrumenter.defaultAttributes i) (heap world1)
           = processDefaults cfg'
        /\ forall world2 ops,
             rtc (use Sample.runtime i) (world1, []) (world2, ops) ->
             elems (Instrumenter.defaultAttributes i) (heap world2)
             = elems (Instrumenter.defaultAttributes i) (heap world1)).
Proof.
  apply (default_attributes_are_never_mutated Sample.runtime
           [Sample.traced; Sample.untraced] Sample.cfg Sample.options
           Sample.world0).
  - reflexivity.
  - reflexivity.
Defined.

(** * More of the package: proofs *)

(** ** option.go: what the options write *)

Lemma build_packageOption (c : OptionCall) : packageOption (build c).
Proof. destruct c; constructor. Qed.

Lemma builds_packageOptions (calls : list OptionCall) :
  Forall packageOption (map build calls).
Proof. apply Forall_map, Forall_true, build_packageOption. Qed.

(** [WithBrokerAddresses] writes the server address and port only. *)
Lemma WithBrokerAddresses_frame (addresses : list string) (cfg : config) :
  TracerProvider (WithBrokerAddresses addresses cfg) = TracerProvider cfg
  /\ MeterProvider (WithBrokerAddresses addresses cfg) = MeterProvider cfg
  /\ Propagators (WithBrokerAddresses addresses cfg) = Propagators cfg
  /\ ConsumerGroupID (WithBrokerAddresses addresses cfg) = ConsumerGroupID cfg.
Proof.
  unfold WithBrokerAddresses.
  destruct addresses as [|a [|b l]]; [done| |done].
  destruct (strings.Split a ":") as [|x [|y r]]; [done|done|].
  by destruct (strconv.Atoi y).
Qed.

Lemma apply_TracerProvider (c : OptionCall) (cfg : config) :
  setsTracerProvider c = false ->
  TracerProvider (apply (build c) cfg) = TracerProvider cfg.
Proof.
  destruct c as [[p|]|[p|]|l|g]; try done.
  intros _. apply WithBrokerAddresses_frame.
Qed.


Lemma apply_Propagators (c : OptionCall) (cfg : config) :
  setsPropagators c = false ->
  Propagators (apply (build c) cfg) = Propagators cfg.
Proof.
  destruct c as [[p|]|[p|]|l|g]; try done.
  intros _. apply WithBrokerAddresses_frame.
Qed.

Lemma apply_ConsumerGroupID (c : OptionCall) (cfg : config) :
  setsConsumerGroup c = false ->
  ConsumerGroupID (apply (build c) cfg) = ConsumerGroupID cfg.
Proof.
  destruct c as [[p|]|[p|]|l|g]; try done.
  intros _. apply WithBrokerAddresses_frame.
Qed.

Lemma apply_broker (c : OptionCall) (cfg : config) :
  setsBroker c = false ->
  ServerAddress (apply (build c) cfg) = ServerAddress cfg
  /\ ServerPort (apply (build c) cfg) = ServerPort cfg.
Proof. by destruct c as [[p|]|[p|]|l|g]. Qed.

(** A field that none of the calls assigns is the same after all of them. *)
Lemma fold_keeps {A : Type} (field : config -> A) (sets : OptionCall -> bool)
  (calls : list OptionCall) (cfg : config) :
  (forall c cfg, sets c = false -> field (apply (build c) cfg) = field cfg) ->
  forallb (fun c => negb (sets c)) calls = true ->
  field (fold_left (fun cfg opt => apply opt cfg) (map build calls) cfg)
  = field cfg.
Proof.
  intros Hkeep. revert cfg.
  induction calls as [|c calls IH]; intros cfg Hcalls; [done|].
  simpl in *. apply andb_prop in Hcalls as [Hc Hcalls].
  apply negb_true_iff in Hc. by rewrite IH, Hkeep.
Qed.

(** The configuration that the options leave, before tracer and meter are
    resolved. *)
Lemma newConfig_fold (go : Runtime) (opts : list Option) (cfg : config) :
  newConfig go opts = Ok cfg ->
  let folded :=
    fold_left (fun cfg opt => apply opt cfg) opts
      (mkConfig (Some (GetTracerProvider go)) (Some (GetMeterProvider go))
         (Some (GetTextMapPropagator go)) None None EmptyString 0%Z
         EmptyString) in
  TracerProvider cfg = TracerProvider folded
  /\ MeterProvider cfg = MeterProvider folded
  /\ Propagators cfg = Propagators folded
  /\ ServerAddress cfg = ServerAddress folded
  /\ ServerPort cfg = ServerPort folded
  /\ ConsumerGroupID cfg = ConsumerGroupID folded
  /\ Tracer cfg
     = (fun tp => trace.mkTracer tp defaultTracerName (Version go))
       <$> TracerProvider folded
  /\ Meter cfg
     = (fun mp => metric.mkMeter mp defaultMeterName (Version go))
       <$> MeterProvider folded.
Proof.
  unfold newConfig. simpl.
  destruct (TracerProvider _) as [tp|] eqn:Htp; [|done]. simpl.
  destruct (MeterProvider _) as [mp|] eqn:Hmp; [|done].
  intros [= <-]. simpl. by rewrite Htp, Hmp.
Qed.


Lemma newConfig_calls (go : Runtime) (calls : list OptionCall) :
  exists cfg, newConfig go (map build calls) = Ok cfg.
Proof.
  destruct (newConfig_resolved go (map build calls) (builds_packageOptions calls))
    as (cfg & Hnew & _).
  by exists cfg.
Qed.

Lemma fold_calls_app (before after : list OptionCall) (c : OptionCall)
  (cfg : config) :
  fold_left (fun cfg opt => apply opt cfg) (map build (before ++ c :: after)) cfg
  = fold_left (fun cfg opt => apply opt cfg) (map build after)
      (apply (build c)
         (fold_left (fun cfg opt => apply opt cfg) (map build before) cfg)).
Proof. by rewrite map_app, fold_left_app. Qed.

(** X2: the tracer provider, the propagation codec and the consumer group
    of the resolved configuration are those of the last call that assigns
    them (a non-nil [WithTracerProvider], a non-nil [WithPropagators], any
    [WithConsumerGroup]), whatever other options come before, between or
    after; without such a call they are the global provider, the global
    codec and the empty group. *)
Theorem the_last_assignment_decides (go : Runtime)
  (before after1 after2 after3 : list OptionCall)
  (tp : trace.TracerProvider) (p : propagation.TextMapPropagator)
  (g : string) :
  forallb (fun c => negb (setsTracerProvider c)) after1 = true ->
  forallb (fun c => negb (setsPropagators c)) after2 = true ->
  forallb (fun c => negb (setsConsumerGroup c)) after3 = true ->
  (exists cfg,
     newConfig go
       (map build (before ++ CallWithTracerProvider (Some tp) :: after1))
     = Ok cfg
     /\ TracerProvider cfg = Some tp
     /\ Tracer cfg = Some (trace.mkTracer tp defaultTracerName (Version go)))
  /\ (exists cfg,
        newConfig go
          (map build (before ++ CallWithPropagators (Some p) :: after2))
        = Ok cfg
        /\ Propagators cfg = Some p)
  /\ (exists cfg,
        newConfig go (map build (before ++ CallWithConsumerGroup g :: after3))
        = Ok cfg
        /\ ConsumerGroupID cfg = g)
  /\ (exists cfg,
        newConfig go (map build after1) = Ok cfg
        /\ TracerProvider cfg = Some (GetTracerProvider go))
  /\ (exists cfg,
        newConfig go (map build after2) = Ok cfg
        /\ Propagators cfg = Some (GetTextMapPropagator go))
  /\ (exists cfg,
        newConfig go (map build after3) = Ok cfg
        /\ ConsumerGroupID cfg = EmptyString).
Proof.
  intros H1 H2 H3.
  split; [|split; [|split; [|split; [|split]]]].
  - destruct (newConfig_calls go
                (before ++ CallWithTracerProvider (Some tp) :: after1))
      as (cfg & Hnew).
    destruct (newConfig_fold go _ cfg Hnew) as (Htp & _ & _ & _ & _ & _ & Ht & _).
    rewrite fold_calls_app in Htp, Ht.
    rewrite (fold_keeps TracerProvider setsTracerProvider) in Htp, Ht;
      try done; try (intros; by apply apply_TracerProvider).
    by exists cfg.
  - destruct (newConfig_calls go
                (before ++ CallWithPropagators (Some p) :: after2))
      as (cfg & Hnew).
    destruct (newConfig_fold go _ cfg Hnew) as (_ & _ & Hp & _).
    rewrite fold_calls_app in Hp.
    rewrite (fold_keeps Propagators setsPropagators) in Hp;
      try done; try (intros; by apply apply_Propagators).
    by exists cfg.
  - destruct (newConfig_calls go (before ++ CallWithConsumerGroup g :: after3))
      as (cfg & Hnew).
    destruct (newConfig_fold go _ cfg Hnew) as (_ & _ & _ & _ & _ & Hg & _).
    rewrite fold_calls_app in Hg.
    rewrite (fold_keeps ConsumerGroupID setsConsumerGroup) in Hg;
      try done; try (intros; by apply apply_ConsumerGroupID).
    by exists cfg.
  - destruct (newConfig_calls go after1) as (cfg & Hnew).
    destruct (newConfig_fold go _ cfg Hnew) as (Htp & _).
    rewrite (fold_keeps TracerProvider setsTracerProvider) in Htp;
      try done; try (intros; by apply apply_TracerProvider).
    by exists cfg.
  - destruct (newConfig_calls go after2) as (cfg & Hnew).
    destruct (newConfig_fold go _ cfg Hnew) as (_ & _ & Hp & _).
    rewrite (fold_keeps Propagators setsPropagators) in Hp;
      try done; try (intros; by apply apply_Propagators).
    by exists cfg.
  - destruct (newConfig_calls go after3) as (cfg & Hnew).
    destruct (newConfig_fold go _ cfg Hnew) as (_ & _ & _ & _ & _ & Hg & _).
    rewrite (fold_keeps ConsumerGroupID setsConsumerGroup) in Hg;
      try done; try (intros; by apply apply_ConsumerGroupID).
    by exists cfg.
Qed.

(** ** option.go: broker addresses *)

Lemma WithBrokerAddresses_host_port (host port : string) (cfg : config) :
  strings.lacks ":" host = true ->
  strings.lacks ":" port = true ->
  ServerAddress (WithBrokerAddresses [host +:+ ":" +:+ port] cfg) = host
  /\ ServerPort (WithBrokerAddresses [host +:+ ":" +:+ port] cfg)
     = default (ServerPort cfg) (strconv.Atoi port).
Proof.
  intros Hhost Hport. unfold WithBrokerAddresses.
  change (host +:+ ":" +:+ port) with (host +:+ String ":" port).
  rewrite (Split_cut _ _ _ Hhost), (Split_lacks _ _ Hport). simpl.
  by destruct (strconv.Atoi port).
Qed.

(** X3: a port that an earlier [WithBrokerAddresses] has parsed stays in
    the configuration when a later [WithBrokerAddresses] replaces the server
    address without parsing a port: with two or more addresses, with an
    empty list (which empties the address), or with one address that has no
    port.  The resolved configuration then pairs the later address with the
    earlier port. *)
Theorem the_port_outlives_its_address (go : Runtime)
  (before between : list OptionCall) (host port host' a b : string)
  (rest : list string) (n : Z) :
  strings.lacks ":" host = true ->
  strings.lacks ":" port = true ->
  strings.lacks ":" host' = true ->
  strconv.Atoi port = Some n ->
  forallb (fun c => negb (setsBroker c)) between = true ->
  (exists cfg,
     newConfig go
       (map build
          (before ++ CallWithBrokerAddresses [host +:+ ":" +:+ port]
           :: between ++ [CallWithBrokerAddresses (a :: b :: rest)]))
     = Ok cfg
     /\ ServerAddress cfg = strings.Join (a :: b :: rest) ";"
     /\ ServerPort cfg = n)
  /\ (exists cfg,
        newConfig go
          (map build
             (before ++ CallWithBrokerAddresses [host +:+ ":" +:+ port]
              :: between ++ [CallWithBrokerAddresses []]))
        = Ok cfg
        /\ ServerAddress cfg = EmptyString
        /\ ServerPort cfg = n)
  /\ (exists cfg,
        newConfig go
          (map build
             (before ++ CallWithBrokerAddresses [host +:+ ":" +:+ port]
              :: between ++ [CallWithBrokerAddresses [host']]))
        = Ok cfg
        /\ ServerAddress cfg = host'
        /\ ServerPort cfg = n).
Proof.
  intros Hhost Hport Hhost' Hn Hbetween.
  assert (forall last,
            (forall cfg, ServerPort (WithBrokerAddresses last cfg)
                         = ServerPort cfg) ->
            exists cfg,
              newConfig go
                (map build
                   (before ++ CallWithBrokerAddresses [host +:+ ":" +:+ port]
                    :: between ++ [CallWithBrokerAddresses last]))
              = Ok cfg
              /\ ServerAddress cfg
                 = ServerAddress (WithBrokerAddresses last zeroConfig)
              /\ ServerPort cfg = n) as Hlast.
  { intros last Hkeep.
    destruct (newConfig_calls go
                (before ++ CallWithBrokerAddresses [host +:+ ":" +:+ port]
                 :: between ++ [CallWithBrokerAddresses last]))
      as (cfg & Hnew).
    destruct (newConfig_fold go _ cfg Hnew) as (_ & _ & _ & Haddr & Hp & _).
    exists cfg. split; [done|].
    rewrite fold_calls_app, map_app, fold_left_app in Haddr, Hp.
    simpl in Haddr, Hp. unfold apply at 1 in Haddr. unfold apply at 1 in Hp.
    rewrite Hkeep in Hp.
    rewrite (fold_keeps ServerPort setsBroker) in Hp;
      [|intros; by apply apply_broker|done].
    unfold apply at 1 in Hp.
    destruct (WithBrokerAddresses_host_port host port
                (fold_left (fun cfg opt => apply opt cfg) (map build before)
                   (mkConfig (Some (GetTracerProvider go))
                      (Some (GetMeterProvider go))
                      (Some (GetTextMapPropagator go)) None None EmptyString
                      0%Z EmptyString)) Hhost Hport) as [_ Hparsed].
    rewrite Hparsed, Hn in Hp. split; [|done].
    rewrite Haddr. unfold WithBrokerAddresses.
    destruct last as [|x [|y l]]; [done| |done].
    destruct (strings.Split x ":") as [|u [|v r]]; [done|done|].
    by destruct (strconv.Atoi v). }
  split; [|split].
  - apply (Hlast (a :: b :: rest)). done.
  - apply (Hlast []). done.
  - destruct (Hlast [host']) as (cfg & Hnew & Haddr & Hp).
    { intros cfg. unfold WithBrokerAddresses.
      by rewrite (Split_lacks _ _ Hhost'). }
    exists cfg. split; [done|]. split; [|done].
    rewrite Haddr. unfold WithBrokerAddresses.
    by rewrite (Split_lacks _ _ Hhost').
Qed.

(** X4: of an address with more than one colon, [WithBrokerAddresses] takes
    the text before the first colon as server address and parses the text
    between the first and the second colon as port; what follows the second
    colon is dropped.  A bracketed IPv6 address with a port resolves to the
    opening bracket, and its port is not read. *)
Theorem WithBrokerAddresses_reads_two_pieces (host port tail : string)
  (cfg : config) :
  strings.lacks ":" host = true ->
  strings.lacks ":" port = true ->
  ServerAddress
    (apply (WithBrokerAddresses [host +:+ ":" +:+ port +:+ ":" +:+ tail]) cfg)
  = host
  /\ ServerPort
       (apply (WithBrokerAddresses [host +:+ ":" +:+ port +:+ ":" +:+ tail]) cfg)
     = default (ServerPort cfg) (strconv.Atoi port)
  /\ ServerAddress (apply (WithBrokerAddresses ["[::1]:9092"]) cfg) = "["
  /\ ServerPort (apply (WithBrokerAddresses ["[::1]:9092"]) cfg)
     = ServerPort cfg.
Proof.
  intros Hhost Hport. unfold apply, WithBrokerAddresses.
  change (host +:+ ":" +:+ port +:+ ":" +:+ tail)
    with (host +:+ String ":" (port +:+ String ":" tail)).
  rewrite (Split_cut _ _ _ Hhost), (Split_cut _ _ _ Hport). simpl.
  by destruct (strconv.Atoi port).
Qed.

Lemma Split_Join (c : ascii) (a : string) (rest : list string) :
  forallb (strings.lacks c) (a :: rest) = true ->
  strings.Split (strings.Join (a :: rest) (String c EmptyString)) c = a :: rest.
Proof.
  revert a. induction rest as [|b rest IH]; intros a Hl.
  - simpl in *. apply andb_prop in Hl as [Ha _]. by apply Split_lacks.
  - change (strings.Join (a :: b :: rest) (String c EmptyString))
      with (a +:+ String c (strings.Join (b :: rest) (String c EmptyString))).
    simpl in Hl. apply andb_prop in Hl as [Ha Hl].
    rewrite (Split_cut _ _ _ Ha). f_equal. by apply IH.
Qed.

(** X5: the server address that [WithBrokerAddresses] builds from two or
    more addresses splits back into these addresses at the semicolons, as
    long as no address holds a semicolon. *)
Theorem joined_addresses_split_back (a b : string) (rest : list string)
  (cfg : config) :
  forallb (strings.lacks ";") (a :: b :: rest) = true ->
  strings.Split
    (ServerAddress (apply (WithBrokerAddresses (a :: b :: rest)) cfg)) ";"
  = a :: b :: rest.
Proof. intros Hl. by apply (Split_Join ";" a (b :: rest)). Qed.

(** ** strconv: decimal text and back *)

Lemma digits_of_uint_acc (d : Decimal.uint) (acc : positive) :
  strconv.digits (NilEmpty.string_of_uint d) (Z.pos acc)
  = Some (Z.pos (Pos.of_uint_acc d acc)).
Proof.
  revert acc. induction d; intros acc; simpl; [done|..];
    match goal with
    | |- strconv.digits _ ?z = Some (Z.pos (Pos.of_uint_acc _ ?p)) =>
        replace z with (Z.pos p) by lia; apply IHd
    end.
Qed.

Lemma digits_of_uint (d : Decimal.uint) :
  strconv.digits (NilEmpty.string_of_uint d) 0
  = Some (Z.of_N (Pos.of_uint d)).
Proof.
  induction d; simpl; [done|done|..]; apply digits_of_uint_acc.
Qed.

(** The text of a decimal number starts with a digit. *)
Lemma string_of_uint_head (d : Decimal.uint) :
  d <> Decimal.Nil ->
  exists c rest,
    NilEmpty.string_of_uint d = String c rest
    /\ Ascii.eqb c "-" = false /\ Ascii.eqb c "+" = false.
Proof. destruct d; [done|..]; intros _; by eexists _, _. Qed.

Lemma lacks_string_of_uint (c : ascii) (d : Decimal.uint) :
  strconv.digit c = None ->
  strings.lacks c (NilEmpty.string_of_uint d) = true.
Proof.
  intros Hc. induction d; [done|..];
    cbn [NilEmpty.string_of_uint strings.lacks]; rewrite IHd, andb_true_r;
    apply negb_true_iff, Ascii.eqb_neq; intros <-; vm_compute in Hc;
    discriminate.
Qed.

Lemma FormatInt_pos (p : positive) :
  strconv.FormatInt (Z.pos p) = NilEmpty.string_of_uint (Pos.to_uint p).
Proof.
  unfold strconv.FormatInt. simpl. unfold NilZero.string_of_uint.
  pose proof (DecimalPos.Unsigned.to_uint_nonnil p).
  by destruct (Pos.to_uint p).
Qed.

Lemma FormatInt_neg (p : positive) :
  strconv.FormatInt (Z.neg p)
  = String "-" (NilEmpty.string_of_uint (Pos.to_uint p)).
Proof.
  unfold strconv.FormatInt. simpl. unfold NilZero.string_of_uint.
  pose proof (DecimalPos.Unsigned.to_uint_nonnil p).
  by destruct (Pos.to_uint p).
Qed.

(** [Atoi] reads back what [FormatInt] writes, for the values of [int]. *)
Lemma in_range (v : Z) :
  int64 v ->
  (- 2 ^ (strconv.intSize - 1) <=? v)%Z
  && (v <=? 2 ^ (strconv.intSize - 1) - 1)%Z = true.
Proof.
  intros [Hlo Hhi]. apply andb_true_intro. split; by apply Z.leb_le.
Qed.

Lemma Atoi_FormatInt (i : Z) :
  int64 i -> strconv.Atoi (strconv.FormatInt i) = Some i.
Proof.
  intros Hi. destruct i as [|p|p].
  - done.
  - rewrite FormatInt_pos.
    destruct (string_of_uint_head (Pos.to_uint p)) as (c & rest & Hs & Hm & Hp);
      [apply DecimalPos.Unsigned.to_uint_nonnil|].
    unfold strconv.Atoi. rewrite Hs, Hm, Hp. cbn [orb]. cbv zeta.
    rewrite <- Hs, digits_of_uint, DecimalPos.Unsigned.of_to.
    cbn [Z.of_N]. by rewrite (in_range _ Hi).
  - rewrite FormatInt_neg.
    destruct (string_of_uint_head (Pos.to_uint p)) as (c & rest & Hs & _);
      [apply DecimalPos.Unsigned.to_uint_nonnil|].
    unfold strconv.Atoi.
    change (Ascii.eqb "-" "-") with true. cbn [orb]. cbv zeta.
    rewrite digits_of_uint, DecimalPos.Unsigned.of_to.
    cbn [Z.of_N]. change (- Z.pos p)%Z with (Z.neg p).
    by rewrite Hs, (in_range _ Hi).
Qed.

Lemma added_app (tr1 tr2 : list Event) :
  added (tr1 ++ tr2) = added tr1 ++ added tr2.
Proof. apply omap_app. Qed.

Lemma recorded_app (tr1 tr2 : list Event) :
  recorded (tr1 ++ tr2) = recorded tr1 ++ recorded tr2.
Proof. apply omap_app. Qed.

Lemma spanAttributes_app (tr1 tr2 : list Event) :
  spanAttributes (tr1 ++ tr2) = spanAttributes tr1 ++ spanAttributes tr2.
Proof. apply omap_app. Qed.

Lemma sent_app (tr1 tr2 : list Event) :
  sent (tr1 ++ tr2) = sent tr1 ++ sent tr2.
Proof. apply omap_app. Qed.

Lemma lacks_FormatInt (c : ascii) (i : Z) :
  strconv.digit c = None -> Ascii.eqb "-" c = false ->
  strings.lacks c (strconv.FormatInt i) = true.
Proof.
  intros Hc Hm. destruct i as [|p|p].
  - change (strconv.FormatInt 0) with (NilEmpty.string_of_uint (Decimal.D0 Decimal.Nil)).
    by apply lacks_string_of_uint.
  - rewrite FormatInt_pos. by apply lacks_string_of_uint.
  - rewrite FormatInt_neg. cbn [strings.lacks].
    by rewrite Hm, lacks_string_of_uint.
Qed.

Lemma FormatInt_inj (i j : Z) :
  int64 i -> int64 j -> strconv.FormatInt i = strconv.FormatInt j -> i = j.
Proof.
  intros Hi Hj Heq. apply (f_equal strconv.Atoi) in Heq.
  rewrite !Atoi_FormatInt in Heq by done. congruence.
Qed.

(** X6: a port written in decimal by [FormatInt] is read back by
    [WithBrokerAddresses]: for every host without a colon and every port in
    the range of [int], the address [host:port] resolves to that host and
    that port, negative ports and zero included. *)
Theorem formatted_port_is_read_back (host : string) (port : Z) (cfg : config) :
  strings.lacks ":" host = true ->
  int64 port ->
  ServerAddress
    (apply (WithBrokerAddresses [host +:+ ":" +:+ strconv.FormatInt port]) cfg)
  = host
  /\ ServerPort
       (apply (WithBrokerAddresses [host +:+ ":" +:+ strconv.FormatInt port])
          cfg)
     = port.
Proof.
  intros Hhost Hport.
  destruct (WithBrokerAddresses_host_port host (strconv.FormatInt port) cfg)
    as [Haddr Hp]; [done|by apply lacks_FormatInt|].
  unfold apply. by rewrite Haddr, Hp, Atoi_FormatInt.
Qed.

(** X7: the measurements of two messages carry the same attributes only if
    the messages have the same topic and the same partition, and their
    spans carry the same attributes only if the offset is the same too:
    the decimal text of partition and offset tells the numbers apart. *)
Theorem attributes_tell_messages_apart (go : Runtime)
  (msg1 msg2 : sarama.ConsumerMessage) (cfg : config) (world : World) :
  resolved cfg = true ->
  int32 (sarama.Partition msg1) -> int32 (sarama.Partition msg2) ->
  int64 (sarama.Offset msg1) -> int64 (sarama.Offset msg2) ->
  exists w world1 world2 tr c a1 a2 s1 s2,
    newConsumerMessagesDispatcherWrapper go [msg1; msg2] cfg world
    = (Ok w, world1)
    /\ Run go w world1 = (Ok tt, world2)
    /\ events world2 = events world1 ++ tr
    /\ added tr = [(c, 1%Z, a1); (c, 1%Z, a2)]
    /\ spanAttributes tr = [s1; s2]
    /\ (a1 = a2 ->
        sarama.Topic msg1 = sarama.Topic msg2
        /\ sarama.Partition msg1 = sarama.Partition msg2)
    /\ (s1 = s2 ->
        sarama.Topic msg1 = sarama.Topic msg2
        /\ sarama.Partition msg1 = sarama.Partition msg2
        /\ sarama.Offset msg1 = sarama.Offset msg2).
Proof.
  intros Hcfg Hp1 Hp2 Ho1 Ho2.
  destruct (resolved_inv cfg Hcfg) as (t & m & p & Ht & Hm & Hp).
  destruct (wrapper_runs go [msg1; msg2] cfg t m p world Ht Hm Hp)
    as (w & world1 & world2 & E1 & E2 & _ & Hev1 & Hev2 & _).
  assert (forall i j, int32 i -> int32 j ->
                      strconv.FormatInt i = strconv.FormatInt j -> i = j)
    as Hinj32.
  { intros i j [? ?] [? ?]. apply FormatInt_inj; split; lia. }
  eexists w, world1, world2, _, _, _, _, _, _.
  split; [done|]. split; [done|]. split; [by rewrite Hev1|].
  split; [|split; [|split]].
  - rewrite added_app, added_receiveAll. reflexivity.
  - rewrite spanAttributes_app, spanAttributes_receiveAll. reflexivity.
  - intros Heq. apply app_inv_head in Heq. unfold destination in Heq.
    injection Heq as Htopic Hpart. split; [done|]. by apply Hinj32.
  - intros Heq. apply app_inv_head in Heq.
    unfold destination, messageID in Heq. simpl in Heq.
    injection Heq as Htopic Hpart Hoff.
    split; [done|]. split; [by apply Hinj32|by apply FormatInt_inj].
Qed.

(** ** The attributes of spans and measurements *)

Lemma keys_receive (cfg : config) (msg : sarama.ConsumerMessage) :
  NoDup (keys (receiveDefaults cfg ++ destination msg ++ [messageID msg])).
Proof.
  unfold receiveDefaults.
  destruct (negb (String.eqb (ServerAddress cfg) EmptyString)),
    (negb (Z.eqb (ServerPort cfg) 0)),
    (negb (String.eqb (ConsumerGroupID cfg) EmptyString));
    apply (bool_decide_unpack _); vm_compute; reflexivity.
Qed.

Lemma keys_process (cfg : config) (msg : sarama.ConsumerMessage) :
  NoDup
    (keys
       (processDefaults cfg
        ++ [semconv.MessagingDestinationName (sarama.Topic msg);
            messageID msg;
            attribute.String "messaging.destination.partition.id"
              (strconv.FormatInt (sarama.Partition msg))])).
Proof.
  unfold processDefaults.
  destruct (negb (String.eqb (ServerAddress cfg) EmptyString)),
    (negb (Z.eqb (ServerPort cfg) 0));
    apply (bool_decide_unpack _); vm_compute; reflexivity.
Qed.

Lemma keys_prefix (l1 l2 : list KeyValue) :
  NoDup (keys (l1 ++ l2)) -> NoDup (keys l1).
Proof. unfold keys. rewrite map_app. by intros [? _]%NoDup_app. Qed.

Lemma recorded_receiveAll_Forall (go : Runtime) (t : trace.Tracer)
  (m : metric.Meter) (p : propagation.TextMapPropagator)
  (defaults : list KeyValue) (P : list KeyValue -> Prop) (span tick : nat)
  (msgs : list sarama.ConsumerMessage) :
  (forall msg, P (defaults ++ destination msg)) ->
  Forall (fun r => P r.2)
    (recorded (receiveAll go t m p defaults span tick msgs)).
Proof.
  intros HP. revert span tick.
  induction msgs as [|msg msgs IH]; intros span tick; [constructor|].
  simpl. constructor; [apply HP|apply IH].
Qed.

(** X8: no attribute key occurs twice in what a run gives to spans,
    histogram and counter, nor in what [NewProcessOperation] gives to its
    span. *)
Theorem attribute_keys_are_distinct (go : Runtime)
  (d : list sarama.ConsumerMessage) (cfg : config) (calls : list OptionCall)
  (msg : sarama.ConsumerMessage) (world : World) :
  resolved cfg = true ->
  (exists w world1 world2 tr,
     newConsumerMessagesDispatcherWrapper go d cfg world = (Ok w, world1)
     /\ Run go w world1 = (Ok tt, world2)
     /\ events world2 = events world1 ++ tr
     /\ Forall (fun a => NoDup (keys a)) (spanAttributes tr)
     /\ Forall (fun r => NoDup (keys r.2)) (recorded tr)
     /\ Forall (fun r => NoDup (keys r.2)) (added tr))
  /\ (exists i world1 op world2 e,
        NewMessageProcessInstrumenter go (map build calls) world = (Ok i, world1)
        /\ NewProcessOperation go i msg world1 = (Ok op, world2)
        /\ events world2 = events world1 ++ [e]
        /\ Forall (fun a => NoDup (keys a)) (spanAttributes [e])).
Proof.
  intros Hcfg. split.
  - destruct (resolved_inv cfg Hcfg) as (t & m & p & Ht & Hm & Hp).
    destruct (wrapper_runs go d cfg t m p world Ht Hm Hp)
      as (w & world1 & world2 & E1 & E2 & _ & Hev1 & Hev2 & _).
    eexists w, world1, world2, _. split; [done|]. split; [done|].
    split; [by rewrite Hev1|].
    split; [|split].
    + rewrite spanAttributes_app, spanAttributes_receiveAll, app_nil_r.
      apply Forall_map, Forall_true. intros msg'. apply keys_receive.
    + rewrite recorded_app, app_nil_r.
      apply (recorded_receiveAll_Forall go t m p (receiveDefaults cfg)
               (fun a => NoDup (keys a))).
      intros msg'. generalize (keys_receive cfg msg'). rewrite app_assoc.
      apply keys_prefix.
    + rewrite added_app, added_receiveAll, app_nil_r.
      apply Forall_map, Forall_true. intros msg'. simpl.
      generalize (keys_receive cfg msg'). rewrite app_assoc.
      apply keys_prefix.
  - destruct (newConfig_resolved go (map build calls)
                (builds_packageOptions calls)) as (cfg' & Hnew & Hres).
    destruct (resolved_inv cfg' Hres) as (t & m & p & Ht & Hm & Hp).
    destruct (NewMessageProcessInstrumenter_eq go _ cfg' m world Hnew Hm)
      as (ds & h1 & E1 & Hb1 & Hel1).
    set (i := Instrumenter.mk cfg'
                (Some (metric.Float64Histogram m
                         "messaging.client.process.duration" "s")) ds) in *.
    destruct (NewProcessOperation_eq go i t p msg
                (mkWorld h1 (nextSpan world) (ticks world) (events world))
                Ht Hp Hb1)
      as (h2 & E2 & _).
    eexists i, _, _, _, _. split; [exact E1|]. split; [exact E2|].
    split; [done|]. constructor; [|constructor].
    simpl in *. rewrite Hel1. apply keys_process.
Qed.

Lemma receiveDefaults_keys (cfg : config) :
  hasKey "server.address" (receiveDefaults cfg)
  = negb (String.eqb (ServerAddress cfg) EmptyString)
  /\ hasKey "server.port" (receiveDefaults cfg) = negb (Z.eqb (ServerPort cfg) 0)
  /\ hasKey "messaging.consumer.group.name" (receiveDefaults cfg)
     = negb (String.eqb (ConsumerGroupID cfg) EmptyString)
  /\ (2 <= length (receiveDefaults cfg) <= 5)%nat.
Proof.
  unfold receiveDefaults.
  destruct (negb (String.eqb (ServerAddress cfg) EmptyString)),
    (negb (Z.eqb (ServerPort cfg) 0)),
    (negb (String.eqb (ConsumerGroupID cfg) EmptyString));
    repeat split; simpl; lia.
Qed.

Lemma processDefaults_keys (cfg : config) :
  hasKey "server.address" (processDefaults cfg)
  = negb (String.eqb (ServerAddress cfg) EmptyString)
  /\ hasKey "server.port" (processDefaults cfg) = negb (Z.eqb (ServerPort cfg) 0)
  /\ hasKey "messaging.consumer.group.name" (processDefaults cfg) = false
  /\ (2 <= length (processDefaults cfg) <= 4)%nat.
Proof.
  unfold processDefaults.
  destruct (negb (String.eqb (ServerAddress cfg) EmptyString)),
    (negb (Z.eqb (ServerPort cfg) 0));
    repeat split; simpl; lia.
Qed.

(** X9: the default attributes that the constructors build hold the
    server address exactly when the configured address is not empty and the
    server port exactly when the configured port is not zero; the wrapper
    adds the consumer group exactly when it is not empty, whereas the
    process instrumenter never reports the consumer group, configured or
    not.  The wrapper has two to five default attributes, the instrumenter
    two to four. *)
Theorem default_attributes_follow_the_configuration (go : Runtime)
  (d : list sarama.ConsumerMessage) (cfg : config) (calls : list OptionCall)
  (world : World) :
  resolved cfg = true ->
  (exists w world1,
     newConsumerMessagesDispatcherWrapper go d cfg world = (Ok w, world1)
     /\ hasKey "server.address"
          (elems (Wrapper.defaultAttributes w) (heap world1))
        = negb (String.eqb (ServerAddress cfg) EmptyString)
     /\ hasKey "server.port"
          (elems (Wrapper.defaultAttributes w) (heap world1))
        = negb (Z.eqb (ServerPort cfg) 0)
     /\ hasKey "messaging.consumer.group.name"
          (elems (Wrapper.defaultAttributes w) (heap world1))
        = negb (String.eqb (ConsumerGroupID cfg) EmptyString)
     /\ (2 <= length (elems (Wrapper.defaultAttributes w) (heap world1)) <= 5)%nat)
  /\ (exists cfg' i world1,
        newConfig go (map build calls) = Ok cfg'
        /\ NewMessageProcessInstrumenter go (map build calls) world
           = (Ok i, world1)
        /\ hasKey "server.address"
             (elems (Instrumenter.defaultAttributes i) (heap world1))
           = negb (String.eqb (ServerAddress cfg') EmptyString)
        /\ hasKey "server.port"
             (elems (Instrumenter.defaultAttributes i) (heap world1))
           = negb (Z.eqb (ServerPort cfg') 0)
        /\ hasKey "messaging.consumer.group.name"
             (elems (Instrumenter.defaultAttributes i) (heap world1))
           = false
        /\ (2 <= length (elems (Instrumenter.defaultAttributes i) (heap world1))
            <= 4)%nat).
Proof.
  intros Hcfg. split.
  - destruct (resolved_inv cfg Hcfg) as (t & m & p & Ht & Hm & Hp).
    destruct (newConsumerMessagesDispatcherWrapper_eq go d cfg m world Hm)
      as (ds & h1 & E1 & Hb1 & Hel1).
    eexists _, _. split; [exact E1|]. simpl. rewrite Hel1.
    apply receiveDefaults_keys.
  - destruct (newConfig_resolved go (map build calls)
                (builds_packageOptions calls)) as (cfg' & Hnew & Hres).
    destruct (resolved_inv cfg' Hres) as (t & m & p & Ht & Hm & Hp).
    destruct (NewMessageProcessInstrumenter_eq go _ cfg' m world Hnew Hm)
      as (ds & h1 & E1 & Hb1 & Hel1).
    eexists cfg', _, _. split; [done|]. split; [exact E1|]. simpl.
    rewrite Hel1. apply processDefaults_keys.
Qed.

Section Names.

Variables (go : Runtime) (t : trace.Tracer) (m : metric.Meter)
  (p : propagation.TextMapPropagator) (defaults : list KeyValue).

Lemma spanNames_receiveAll (span tick : nat)
  (msgs : list sarama.ConsumerMessage) :
  spanNames (receiveAll go t m p defaults span tick msgs)
  = map (fun msg => sarama.Topic msg +:+ " receive") msgs.
Proof.
  revert span tick. induction msgs as [|msg msgs IH]; intros span tick; [done|].
  simpl. f_equal. apply IH.
Qed.

Lemma spanKinds_receiveAll (span tick : nat)
  (msgs : list sarama.ConsumerMessage) :
  spanKinds (receiveAll go t m p defaults span tick msgs)
  = map (fun _ => trace.SpanKindUnspecified) msgs.
Proof.
  revert span tick. induction msgs as [|msg msgs IH]; intros span tick; [done|].
  simpl. f_equal. apply IH.
Qed.

End Names.

(** X10: the wrapper names the span of a message after its topic followed
    by [receive] and gives no span kind, so that the kind is left
    unspecified; [NewProcessOperation] names its span after the topic
    followed by [process] and gives the consumer kind.  The operation it
    returns holds the span, the topic, the partition in decimal and, as
    start, the clock reading made after the span was started. *)
Theorem span_names_and_kinds (go : Runtime) (d : list sarama.ConsumerMessage)
  (cfg : config) (calls : list OptionCall) (msg : sarama.ConsumerMessage)
  (world : World) :
  resolved cfg = true ->
  (exists w world1 world2 tr,
     newConsumerMessagesDispatcherWrapper go d cfg world = (Ok w, world1)
     /\ Run go w world1 = (Ok tt, world2)
     /\ events world2 = events world1 ++ tr
     /\ spanNames tr = map (fun msg => sarama.Topic msg +:+ " receive") d
     /\ spanKinds tr = map (fun _ => trace.SpanKindUnspecified) d)
  /\ (exists i world1 op world2 e,
        NewMessageProcessInstrumenter go (map build calls) world = (Ok i, world1)
        /\ NewProcessOperation go i msg world1 = (Ok op, world2)
        /\ events world2 = events world1 ++ [e]
        /\ spanNames [e] = [sarama.Topic msg +:+ " process"]
        /\ spanKinds [e] = [trace.SpanKindConsumer]
        /\ started [e] = [nextSpan world1]
        /\ Operation.span op = Some (nextSpan world1)
        /\ Operation.topic op = sarama.Topic msg
        /\ Operation.partition op = strconv.FormatInt (sarama.Partition msg)
        /\ Operation.err op = None
        /\ Operation.start op = clock go (ticks world1)
        /\ ticks world2 = S (ticks world1)).
Proof.
  intros Hcfg. split.
  - destruct (resolved_inv cfg Hcfg) as (t & m & p & Ht & Hm & Hp).
    destruct (wrapper_runs go d cfg t m p world Ht Hm Hp)
      as (w & world1 & world2 & E1 & E2 & _ & Hev1 & Hev2 & _).
    eexists w, world1, world2, _. split; [done|]. split; [done|].
    split; [by rewrite Hev1|].
    unfold spanNames, spanKinds. rewrite !omap_app.
    fold (spanNames (receiveAll go t m p (receiveDefaults cfg) (nextSpan world)
                       (ticks world) d)).
    fold (spanKinds (receiveAll go t m p (receiveDefaults cfg) (nextSpan world)
                       (ticks world) d)).
    rewrite spanNames_receiveAll, spanKinds_receiveAll.
    simpl. by rewrite !app_nil_r.
  - destruct (newConfig_resolved go (map build calls)
                (builds_packageOptions calls)) as (cfg' & Hnew & Hres).
    destruct (resolved_inv cfg' Hres) as (t & m & p & Ht & Hm & Hp).
    destruct (NewMessageProcessInstrumenter_eq go _ cfg' m world Hnew Hm)
      as (ds & h1 & E1 & Hb1 & Hel1).
    set (i := Instrumenter.mk cfg'
                (Some (metric.Float64Histogram m
                         "messaging.client.process.duration" "s")) ds) in *.
    destruct (NewProcessOperation_eq go i t p msg
                (mkWorld h1 (nextSpan world) (ticks world) (events world))
                Ht Hp Hb1)
      as (h2 & E2 & _).
    eexists i, _, _, _, _. split; [exact E1|]. split; [exact E2|].
    by repeat split.
Qed.

(** ** process_operation.go: [Stop] on an operation with its instrumenter *)

Lemma backedb_backed (h : gmap nat (list KeyValue)) (s : slice) :
  backedb h s = true -> backed h s.
Proof.
  unfold backedb, backed. intros [Hz|Ha]%orb_prop.
  - apply andb_prop in Hz as [Hl Hc]. left.
    split; by apply Nat.eqb_eq.
  - right. destruct (h !! array s) as [arr|]; [|done].
    apply andb_prop in Ha as [Hl Hc]. exists arr.
    split; [done|]. split; by apply Nat.leb_le.
Qed.

(** [Stop] leaves the default attributes of the instrumenter as they are. *)
Lemma Stop_eq_frame (go : Runtime) (op : MessageProcessOperation) (s : nat)
  (h : metric.Instrument) (world : World) :
  Operation.span op = Some s ->
  Instrumenter.metricProcessDuration (Operation.instrumenter op) = Some h ->
  backed (heap world)
    (Instrumenter.defaultAttributes (Operation.instrumenter op)) ->
  exists h',
    Stop go op world
    = (Ok tt,
       mkWorld h' (nextSpan world) (S (ticks world))
         (events world
          ++ [SpanEnd s;
              Measure h
                (Seconds (Sub (clock go (ticks world)) (Operation.start op)))
                (elems
                   (Instrumenter.defaultAttributes (Operation.instrumenter op))
                   (heap world)
                 ++ [semconv.MessagingDestinationName (Operation.topic op);
                     attribute.String "messaging.destination.partition.id"
                       (Operation.partition op)]
                 ++ match Operation.err op with
                    | Some e => [attribute.String "error.type" (Error e)]
                    | None => []
                    end)]))
    /\ backed h' (Instrumenter.defaultAttributes (Operation.instrumenter op))
    /\ elems (Instrumenter.defaultAttributes (Operation.instrumenter op)) h'
       = elems (Instrumenter.defaultAttributes (Operation.instrumenter op))
           (heap world).
Proof.
  intros Hs Hh Hb. unfold Stop. rewrite Hs, Hh.
  erewrite bind_Ok by reflexivity.
  set (w1 := mkWorld (heap world) (nextSpan world) (ticks world)
               (events world ++ [SpanEnd s])).
  destruct (append_eq go
              (Instrumenter.defaultAttributes (Operation.instrumenter op))
              [semconv.MessagingDestinationName (Operation.topic op);
               attribute.String "messaging.destination.partition.id"
                 (Operation.partition op)] w1 Hb)
    as (attrs & h1 & E1 & Hel1 & Hlen1 & Hb1 & _ & Hk1).
  erewrite bind_Ok by exact E1.
  destruct (Hk1 _ Hb) as [Hb1d Hel1d]; [lia|].
  destruct (Operation.err op) as [e|].
  - destruct (append_eq go attrs [attribute.String "error.type" (Error e)]
                (mkWorld h1 (nextSpan w1) (ticks w1) (events w1)) Hb1)
      as (attrs2 & h2 & E2 & Hel2 & _ & _ & _ & Hk2).
    erewrite bind_Ok by exact E2.
    erewrite bind_Ok by reflexivity.
    erewrite bind_Ok by reflexivity.
    destruct (Hk2 _ Hb1d) as [Hb2d Hel2d]; [simpl in *; lia|].
    exists h2. unfold Histogram_Record, emit. simpl in *.
    rewrite Hel2, Hel1, <- !app_assoc. split; [done|]. split; [done|congruence].
  - erewrite bind_Ok by reflexivity.
    erewrite bind_Ok by reflexivity.
    erewrite bind_Ok by reflexivity.
    exists h1. unfold Histogram_Record, emit. simpl in *.
    rewrite Hel1, <- !app_assoc. done.
Qed.

(** X11: on an operation that holds a span and an instrumenter with its
    histogram, [Stop] returns after it has ended the span and then recorded
    one duration, from the start of the operation to the clock reading it
    makes, on that histogram; the attributes are the default attributes of
    the instrumenter, the destination, the partition and, exactly when an
    error is set, the error type with the text of the error.  The default
    attributes of the instrumenter are left as they were. *)
Theorem Stop_records_with_its_instrumenter (go : Runtime)
  (op : MessageProcessOperation) (s : nat) (h : metric.Instrument)
  (world : World) :
  Operation.span op = Some s ->
  Instrumenter.metricProcessDuration (Operation.instrumenter op) = Some h ->
  backedb (heap world)
    (Instrumenter.defaultAttributes (Operation.instrumenter op)) = true ->
  exists world',
    Stop go op world = (Ok tt, world')
    /\ events world'
       = events world
         ++ [SpanEnd s;
             Measure h
               (Seconds (Sub (clock go (ticks world)) (Operation.start op)))
               (elems
                  (Instrumenter.defaultAttributes (Operation.instrumenter op))
                  (heap world)
                ++ [semconv.MessagingDestinationName (Operation.topic op);
                    attribute.String "messaging.destination.partition.id"
                      (Operation.partition op)]
                ++ match Operation.err op with
                   | Some e => [attribute.String "error.type" (Error e)]
                   | None => []
                   end)]
    /\ elems (Instrumenter.defaultAttributes (Operation.instrumenter op))
         (heap world')
       = elems (Instrumenter.defaultAttributes (Operation.instrumenter op))
           (heap world).
Proof.
  intros Hs Hh Hb%backedb_backed.
  destruct (Stop_eq_frame go op s h world Hs Hh Hb) as (h' & E & _ & Hel).
  eexists. split; [exact E|]. by split.
Qed.

(** X12: [Stop] does not guard against a second call: on an operation with
    its instrumenter, two calls end the same span twice and record two
    durations with the same attributes, the second up to the later clock
    reading. *)
Theorem Stop_twice_records_twice (go : Runtime)
  (op : MessageProcessOperation) (s : nat) (h : metric.Instrument)
  (world : World) :
  Operation.span op = Some s ->
  Instrumenter.metricProcessDuration (Operation.instrumenter op) = Some h ->
  backedb (heap world)
    (Instrumenter.defaultAttributes (Operation.instrumenter op)) = true ->
  exists world1 world2 attrs,
    Stop go op world = (Ok tt, world1)
    /\ Stop go op world1 = (Ok tt, world2)
    /\ events world2
       = events world
         ++ [SpanEnd s;
             Measure h
               (Seconds (Sub (clock go (ticks world)) (Operation.start op)))
               attrs;
             SpanEnd s;
             Measure h
               (Seconds (Sub (clock go (S (ticks world))) (Operation.start op)))
               attrs].
Proof.
  intros Hs Hh Hb%backedb_backed.
  destruct (Stop_eq_frame go op s h world Hs Hh Hb) as (h1 & E1 & Hb1 & Hel1).
  match type of E1 with _ = (_, ?w) => set (world1 := w) in * end.
  destruct (Stop_eq_frame go op s h world1 Hs Hh Hb1) as (h2 & E2 & _ & _).
  eexists world1, _, _. split; [exact E1|]. split; [exact E2|].
  simpl. rewrite Hel1, <- app_assoc. done.
Qed.

(** ** process_operation.go: what a client of the instrumenter can observe *)

Section Client.

Variables (go : Runtime) (i : MessageProcessInstrumenter) (t : trace.Tracer)
  (p : propagation.TextMapPropagator) (defaults : list KeyValue).

Hypothesis tracer : Tracer (Instrumenter.cfg i) = Some t.
Hypothesis codec : Propagators (Instrumenter.cfg i) = Some p.

Lemma use_records_nothing (st st' : World * list MessageProcessOperation) :
  use go i st st' -> sound i defaults st ->
  recorded (events st'.1) = recorded (events st.1).
Proof.
  intros Hstep (Hb & Hel & Hops).
  destruct Hstep as [w ops msg op w' Hopen|w ops op e Hin|w ops op r w' Hin Hstop];
    simpl in *.
  - destruct (NewProcessOperation_eq go i t p msg w tracer codec Hb)
      as (h' & E & _).
    rewrite E in Hopen. injection Hopen as <- <-. simpl.
    rewrite recorded_app. apply app_nil_r.
  - done.
  - apply list_elem_of_In in Hin.
    destruct (proj1 (Forall_forall _ _) Hops op Hin) as [Hz [s Hs]].
    destruct (Stop_zero_eq go op s w Hz Hs) as (h' & E & _).
    rewrite E in Hstop. injection Hstop as <- <-. simpl.
    rewrite recorded_app. apply app_nil_r.
Qed.

Lemma uses_record_nothing (st st' : World * list MessageProcessOperation) :
  rtc (use go i) st st' -> sound i defaults st ->
  recorded (events st'.1) = recorded (events st.1).
Proof.
  induction 1 as [|st1 st2 st3 Hstep _ IH]; [done|].
  intros Hst. rewrite IH by (by apply (use_sound go i t p defaults tracer codec st1)).
  by apply use_records_nothing.
Qed.

End Client.

(** X13: through the functions of the package no duration is ever
    recorded on the process histogram: whatever operations a client opens
    on an instrumenter, gives errors to and stops, in any order, the
    measurements in the event log stay those made before, and [Stop]
    panics on every operation the client holds. *)
Theorem no_process_duration_is_ever_recorded (go : Runtime)
  (calls : list OptionCall) (world : World) :
  exists i world1,
    NewMessageProcessInstrumenter go (map build calls) world = (Ok i, world1)
    /\ forall world2 ops,
         rtc (use go i) (world1, []) (world2, ops) ->
         recorded (events world2) = recorded (events world)
         /\ Forall (fun op => exists world3,
                      Stop go op world2 = (Panic, world3)
                      /\ recorded (events world3) = recorded (events world))
              ops.
Proof.
  destruct (newConfig_resolved go (map build calls)
              (builds_packageOptions calls)) as (cfg' & Hnew & Hres).
  destruct (resolved_inv cfg' Hres) as (t & m & p & Ht & Hm & Hp).
  destruct (NewMessageProcessInstrumenter_eq go _ cfg' m world Hnew Hm)
    as (ds & h1 & E1 & Hb1 & Hel1).
  set (i := Instrumenter.mk cfg'
              (Some (metric.Float64Histogram m
                       "messaging.client.process.duration" "s")) ds) in *.
  set (world1 := mkWorld h1 (nextSpan world) (ticks world) (events world)) in *.
  exists i, world1. split; [exact E1|]. intros world2 ops Hrun.
  assert (sound i (processDefaults cfg') (world1, [])) as Hsound.
  { split; [done|]. split; [done|]. constructor. }
  pose proof (uses_record_nothing go i t p (processDefaults cfg') Ht Hp
                _ _ Hrun Hsound) as Hrec.
  destruct (uses_sound go i t p (processDefaults cfg') Ht Hp _ _ Hrun Hsound)
    as (_ & _ & Hops).
  simpl in Hrec, Hops. split; [done|].
  eapply Forall_impl; [exact Hops|]. intros op [Hz [s Hs]].
  destruct (Stop_zero_eq go op s world2 Hz Hs) as (h3 & E3 & _).
  eexists. split; [exact E3|]. simpl.
  rewrite recorded_app, Hrec. apply app_nil_r.
Qed.

(** ** dispatcher.go: durations, and a configuration that is not resolved *)

Lemma Sub_bounds (t u : Z) :
  (u <= t)%Z -> (0 <= Sub t u <= 2 ^ 63 - 1)%Z.
Proof. unfold Sub. lia. Qed.

Lemma durations_receiveAll (go : Runtime) (t : trace.Tracer)
  (m : metric.Meter) (p : propagation.TextMapPropagator)
  (defaults : list KeyValue) (span tick : nat)
  (msgs : list sarama.ConsumerMessage) :
  durations (receiveAll go t m p defaults span tick msgs)
  = map (fun k => Sub (clock go (S (tick + 2 * k))) (clock go (tick + 2 * k)))
      (seq 0 (length msgs)).
Proof.
  revert span tick. induction msgs as [|msg msgs IH]; intros span tick; [done|].
  cbn [receiveAll length]. unfold durations. rewrite omap_app.
  fold (durations (receiveAll go t m p defaults (S span) (S (S tick)) msgs)).
  rewrite IH. cbn [seq map]. rewrite <- seq_shift, map_map.
  change (omap _ (receiveSteps go t m p defaults span tick msg))
    with [Sub (clock go (S tick)) (clock go tick)].
  cbn [app]. f_equal.
  - by rewrite Nat.mul_0_r, Nat.add_0_r.
  - apply map_ext. intros k.
    replace (S (S tick) + 2 * k)%nat with (tick + 2 * S k)%nat by lia. done.
Qed.

(** X14: when the clock does not run backwards, every receive duration
    that a run records lies between zero and the largest [Duration]; there
    is one per message, the duration of the k-th message being taken
    between the two clock readings of its own turn of the loop. *)
Theorem receive_durations_are_not_negative (go : Runtime)
  (d : list sarama.ConsumerMessage) (cfg : config) (world : World) :
  resolved cfg = true ->
  (forall n, (clock go n <= clock go (S n))%Z) ->
  exists w world1 world2 tr,
    newConsumerMessagesDispatcherWrapper go d cfg world = (Ok w, world1)
    /\ Run go w world1 = (Ok tt, world2)
    /\ events world2 = events world1 ++ tr
    /\ durations tr
       = map (fun k =>
                Sub (clock go (S (ticks world1 + 2 * k)))
                  (clock go (ticks world1 + 2 * k)))
           (seq 0 (length d))
    /\ Forall (fun x => (0 <= x <= 2 ^ 63 - 1)%Z) (durations tr).
Proof.
  intros Hcfg Hclock.
  destruct (resolved_inv cfg Hcfg) as (t & m & p & Ht & Hm & Hp).
  destruct (newConsumerMessagesDispatcherWrapper_eq go d cfg m world Hm)
    as (ds & h1 & E1 & _).
  destruct (wrapper_runs go d cfg t m p world Ht Hm Hp)
    as (w & world1 & world2 & E1' & E2 & _ & Hev1 & Hev2 & _).
  assert (ticks world1 = ticks world) as Hticks.
  { rewrite E1 in E1'. by injection E1' as <- <-. }
  eexists w, world1, world2, _. split; [done|]. split; [done|].
  split; [by rewrite Hev1|].
  assert (durations
            (receiveAll go t m p (receiveDefaults cfg) (nextSpan world)
               (ticks world) d ++ [Close])
          = map (fun k =>
                   Sub (clock go (S (ticks world1 + 2 * k)))
                     (clock go (ticks world1 + 2 * k)))
              (seq 0 (length d))) as Hd.
  { unfold durations. rewrite omap_app.
    fold (durations (receiveAll go t m p (receiveDefaults cfg) (nextSpan world)
                       (ticks world) d)).
    rewrite durations_receiveAll, Hticks. simpl. apply app_nil_r. }
  split; [done|]. rewrite Hd.
  apply Forall_map, Forall_true. intros k. apply Sub_bounds, Hclock.
Qed.

Lemma bind_Panic {A B : Type} (m : M A) (k : A -> M B) (w w' : World) :
  m w = (Panic, w') -> bind m k w = (Panic, w').
Proof. unfold bind. by intros ->. Qed.

(** X15: [Run] on a wrapper whose configuration has a meter but lacks the
    propagation codec or the tracer panics on the first message, before the
    message is put on the output channel: nothing is added to the event
    log, and the output channel is not closed. *)
Theorem Run_panics_on_an_unresolved_configuration (go : Runtime)
  (msg : sarama.ConsumerMessage) (rest : list sarama.ConsumerMessage)
  (cfg : config) (m : metric.Meter) (world : World) :
  Meter cfg = Some m ->
  resolved cfg = false ->
  exists w world1 world2,
    newConsumerMessagesDispatcherWrapper go (msg :: rest) cfg world
    = (Ok w, world1)
    /\ Run go w world1 = (Panic, world2)
    /\ events world2 = events world1.
Proof.
  intros Hm Hres.
  destruct (newConsumerMessagesDispatcherWrapper_eq go (msg :: rest) cfg m
              world Hm)
    as (ds & h1 & E1 & Hb1 & _).
  destruct (Propagators cfg) as [p|] eqn:Hp.
  - assert (Tracer cfg = None) as Ht.
    { unfold resolved in Hres. rewrite Hm, Hp in Hres.
      by destruct (Tracer cfg). }
    set (w1 := mkWorld h1 (nextSpan world) (S (ticks world)) (events world)).
    destruct (append_eq go ds (destination msg) w1 Hb1)
      as (attrs & h2 & E2 & _ & _ & Hb2 & _).
    destruct (append_eq go attrs [messageID msg]
                (mkWorld h2 (nextSpan w1) (ticks w1) (events w1)) Hb2)
      as (spanAttrs & h3 & E3 & _).
    simpl in E2, E3.
    eexists _, _, _. split; [exact E1|].
    unfold Run. cbn [Wrapper.d range]. split.
    { erewrite bind_Panic; [reflexivity|].
      erewrite bind_Panic; [reflexivity|].
      unfold receive. cbn [Wrapper.cfg Wrapper.defaultAttributes].
      rewrite Hp, Ht.
      erewrite bind_Ok by reflexivity.
      erewrite bind_Ok by reflexivity.
      erewrite bind_Ok by exact E2.
      erewrite bind_Ok by exact E3.
      erewrite bind_Ok by reflexivity.
      erewrite bind_Panic; reflexivity. }
    reflexivity.
  - eexists _, _, _. split; [exact E1|].
    unfold Run. cbn [Wrapper.d range]. split.
    { erewrite bind_Panic; [reflexivity|].
      erewrite bind_Panic; [reflexivity|].
      unfold receive. cbn [Wrapper.cfg]. rewrite Hp.
      erewrite bind_Ok by reflexivity.
      erewrite bind_Panic; reflexivity. }
    reflexivity.
Qed.

(** ** More instances on the sample data *)

Lemma the_last_assignment_decides_witness :
  exists cfg,
    newConfig Sample.runtime
      (map build
         [CallWithConsumerGroup "billing";
          CallWithTracerProvider (Some (trace.mkTracerProvider "mine"));
          CallWithTracerProvider None;
          CallWithBrokerAddresses ["localhost:9092"]])
    = Ok cfg
    /\ TracerProvider cfg = Some (trace.mkTracerProvider "mine")
    /\ Tracer cfg
       = Some (trace.mkTracer (trace.mkTracerProvider "mine") defaultTracerName
                 (Version Sample.runtime)).
Proof.
  destruct (the_last_assignment_decides Sample.runtime
              [CallWithConsumerGroup "billing"]
              [CallWithTracerProvider None;
               CallWithBrokerAddresses ["localhost:9092"]]
              [] [] (trace.mkTracerProvider "mine") Sample.traceContext
              "billing") as [Hlast _].
  - reflexivity.
  - reflexivity.
  - reflexivity.
  - exact Hlast.
Defined.

Lemma the_port_outlives_its_address_witness :
  exists cfg,
    newConfig Sample.runtime
      (map build
         ([] ++ CallWithBrokerAddresses ["localhost" +:+ ":" +:+ "9092"]
          :: [CallWithConsumerGroup "billing"]
             ++ [CallWithBrokerAddresses ["a:9093"; "b:9094"]]))
    = Ok cfg
    /\ ServerAddress cfg = strings.Join ["a:9093"; "b:9094"] ";"
    /\ ServerPort cfg = 9092%Z.
Proof.
  destruct (the_port_outlives_its_address Sample.runtime []
              [CallWithConsumerGroup "billing"] "localhost" "9092" "kafka-2"
              "a:9093" "b:9094" [] 9092) as [Hmany _].
  - reflexivity.
  - reflexivity.
  - reflexivity.
  - reflexivity.
  - reflexivity.
  - exact Hmany.
Defined.

Lemma WithBrokerAddresses_reads_two_pieces_witness :
  ServerAddress
    (apply (WithBrokerAddresses ["kafka" +:+ ":" +:+ "9093" +:+ ":" +:+ "tls"])
       zeroConfig)
  = "kafka"
  /\ ServerPort
       (apply
          (WithBrokerAddresses ["kafka" +:+ ":" +:+ "9093" +:+ ":" +:+ "tls"])
          zeroConfig)
     = 9093%Z.
Proof.
  destruct (WithBrokerAddresses_reads_two_pieces "kafka" "9093" "tls" zeroConfig)
    as (Haddr & Hport & _).
  - reflexivity.
  - reflexivity.
  - split; [exact Haddr|exact Hport].
Defined.

Lemma joined_addresses_split_back_witness :
  strings.Split
    (ServerAddress
       (apply (WithBrokerAddresses ["a:9092"; "b:9093"; "c"]) zeroConfig)) ";"
  = ["a:9092"; "b:9093"; "c"].
Proof.
  apply (joined_addresses_split_back "a:9092" "b:9093" ["c"] zeroConfig).
  reflexivity.
Defined.

Lemma formatted_port_is_read_back_witness :
  ServerAddress
    (apply (WithBrokerAddresses ["kafka" +:+ ":" +:+ strconv.FormatInt (-1)])
       zeroConfig)
  = "kafka"
  /\ ServerPort
       (apply (WithBrokerAddresses ["kafka" +:+ ":" +:+ strconv.FormatInt (-1)])
          zeroConfig)
     = (-1)%Z.
Proof.
  apply (formatted_port_is_read_back "kafka" (-1) zeroConfig).
  - reflexivity.
  - unfold int64. lia.
Defined.

Lemma attributes_tell_messages_apart_witness :
  exists w world1 world2,
    newConsumerMessagesDispatcherWrapper Sample.runtime
      [Sample.traced; Sample.untraced] Sample.cfg Sample.world0
    = (Ok w, world1)
    /\ Run Sample.runtime w world1 = (Ok tt, world2).
Proof.
  destruct (attributes_tell_messages_apart Sample.runtime Sample.traced
              Sample.untraced Sample.cfg Sample.world0)
    as (w & world1 & world2 & _ & _ & _ & _ & _ & _ & E1 & E2 & _).
  - reflexivity.
  - unfold int32. simpl. lia.
  - unfold int32. simpl. lia.
  - unfold int64. simpl. lia.
  - unfold int64. simpl. lia.
  - by exists w, world1, world2.
Defined.

Lemma attribute_keys_are_distinct_witness :
  exists i world1 op world2 e,
    NewMessageProcessInstrumenter Sample.runtime
      (map build [CallWithBrokerAddresses ["localhost:9092"]]) Sample.world0
    = (Ok i, world1)
    /\ NewProcessOperation Sample.runtime i Sample.traced world1
       = (Ok op, world2)
    /\ events world2 = events world1 ++ [e]
    /\ Forall (fun a => NoDup (keys a)) (spanAttributes [e]).
Proof.
  destruct (attribute_keys_are_distinct Sample.runtime [Sample.traced]
              Sample.cfg [CallWithBrokerAddresses ["localhost:9092"]]
              Sample.traced Sample.world0) as [_ Hprocess].
  - reflexivity.
  - exact Hprocess.
Defined.

Lemma default_attributes_follow_the_configuration_witness :
  exists w world1,
    newConsumerMessagesDispatcherWrapper Sample.runtime [] Sample.cfg
      Sample.world0
    = (Ok w, world1)
    /\ hasKey "server.address"
         (elems (Wrapper.defaultAttributes w) (heap world1))
       = negb (String.eqb (ServerAddress Sample.cfg) EmptyString)
    /\ hasKey "server.port" (elems (Wrapper.defaultAttributes w) (heap world1))
       = negb (Z.eqb (ServerPort Sample.cfg) 0)
    /\ hasKey "messaging.consumer.group.name"
         (elems (Wrapper.defaultAttributes w) (heap world1))
       = negb (String.eqb (ConsumerGroupID Sample.cfg) EmptyString)
    /\ (2 <= length (elems (Wrapper.defaultAttributes w) (heap world1)) <= 5)%nat.
Proof.
  destruct (default_attributes_follow_the_configuration Sample.runtime []
              Sample.cfg [] Sample.world0) as [Hwrapper _].
  - reflexivity.
  - exact Hwrapper.
Defined.

Lemma span_names_and_kinds_witness :
  exists w world1 world2 tr,
    newConsumerMessagesDispatcherWrapper Sample.runtime
      [Sample.traced; Sample.untraced] Sample.cfg Sample.world0
    = (Ok w, world1)
    /\ Run Sample.runtime w world1 = (Ok tt, world2)
    /\ events world2 = events world1 ++ tr
    /\ spanNames tr
       = map (fun msg => sarama.Topic msg +:+ " receive")
           [Sample.traced; Sample.untraced]
    /\ spanKinds tr
       = map (fun _ => trace.SpanKindUnspecified)
           [Sample.traced; Sample.untraced].
Proof.
  destruct (span_names_and_kinds Sample.runtime
              [Sample.traced; Sample.untraced] Sample.cfg [] Sample.traced
              Sample.world0) as [Hreceive _].
  - reflexivity.
  - exact Hreceive.
Defined.

Lemma Stop_records_with_its_instrumenter_witness :
  exists world',
    Stop Sample.runtime Fixture.operation Fixture.world = (Ok tt, world')
    /\ hasKey "error.type"
         (match recorded (events world') with
          | [(_, _, attrs)] => attrs
          | _ => []
          end)
       = true.
Proof.
  destruct (Stop_records_with_its_instrumenter Sample.runtime Fixture.operation
              0 (metric.Float64Histogram
                   (metric.mkMeter (metric.mkMeterProvider "global")
                      defaultMeterName "0.1.0")
                   "messaging.client.process.duration" "s")
              Fixture.world) as (world' & E & Hev & _).
  - reflexivity.
  - reflexivity.
  - vm_compute. reflexivity.
  - exists world'. split; [exact E|]. rewrite Hev. vm_compute. reflexivity.
Defined.

Lemma Stop_twice_records_twice_witness :
  exists world1 world2,
    Stop Sample.runtime Fixture.operation Fixture.world = (Ok tt, world1)
    /\ Stop Sample.runtime Fixture.operation world1 = (Ok tt, world2)
    /\ length (recorded (events world2)) = 2%nat.
Proof.
  destruct (Stop_twice_records_twice Sample.runtime Fixture.operation 0
              (metric.Float64Histogram
                 (metric.mkMeter (metric.mkMeterProvider "global")
                    defaultMeterName "0.1.0")
                 "messaging.client.process.duration" "s")
              Fixture.world) as (world1 & world2 & attrs & E1 & E2 & Hev).
  - reflexivity.
  - reflexivity.
  - vm_compute. reflexivity.
  - exists world1, world2. split; [exact E1|]. split; [exact E2|].
    rewrite Hev. reflexivity.
Defined.

Lemma receive_durations_are_not_negative_witness :
  exists w world1 world2 tr,
    newConsumerMessagesDispatcherWrapper Sample.runtime
      [Sample.traced; Sample.untraced] Sample.cfg Sample.world0
    = (Ok w, world1)
    /\ Run Sample.runtime w world1 = (Ok tt, world2)
    /\ events world2 = events world1 ++ tr
    /\ Forall (fun x => (0 <= x <= 2 ^ 63 - 1)%Z) (durations tr).
Proof.
  destruct (receive_durations_are_not_negative Sample.runtime
              [Sample.traced; Sample.untraced] Sample.cfg Sample.world0)
    as (w & world1 & world2 & tr & E1 & E2 & Hev & _ & Hd).
  - reflexivity.
  - intros n. simpl. lia.
  - by exists w, world1, world2, tr.
Defined.

Lemma Run_panics_on_an_unresolved_configuration_witness :
  exists w world1 world2,
    newConsumerMessagesDispatcherWrapper Sample.runtime [Sample.traced]
      Fixture.meterOnly Sample.world0
    = (Ok w, world1)
    /\ Run Sample.runtime w world1 = (Panic, world2)
    /\ events world2 = events world1.
Proof.
  apply (Run_panics_on_an_unresolved_configuration Sample.runtime
           Sample.traced [] Fixture.meterOnly
           (metric.mkMeter (metric.mkMeterProvider "global") defaultMeterName
              "0.1.0")
           Sample.world0).
  - reflexivity.
  - reflexivity.
Defined.
